(** * MockLLMProvider.stream: the mock streaming engine

    A shallow embedding of [core/framework/llm/mock.py]: the provider's
    state, the [stream] asynchronous generator as an explicit resumable
    frame, the scenario helpers, and the properties of the event
    sequences a consumer observes.

    Python [str] values are [string]s (UTF-8 bytes; the only separators the
    code splits on, space and comma, are single bytes that occur in UTF-8
    only as themselves).  Python [int] is [Z].  JSON-like data are values of
    [PyVal]; the list objects that a caller passes to [stream] are named by
    their address in the caller's heap, since the provider keeps the objects
    themselves. *)

From Stdlib Require Import List String Ascii ZArith Bool Lia PeanoNat.
Import ListNotations.
Set Warnings "-register-all".
Open Scope string_scope.
Open Scope Z_scope.

(** ** Python values and built-ins *)

(** The JSON-like values that travel through the engine untouched
    (messages, tools, tool inputs). *)
Inductive PyVal : Type :=
| PyNone
| PyBool (b : bool)
| PyInt (z : Z)
| PyStr (s : string)
| PyList (items : list PyVal)
| PyDict (entries : list (string * PyVal)).

(** The exceptions the built-ins used by [stream] can raise. *)
Inductive PyExc : Type :=
| ZeroDivisionError
| IndexError.

(** [a % b] on Python ints: the result has the sign of [b]; [b = 0] raises. *)
Definition py_mod (a b : Z) : PyExc + Z :=
  if b =? 0 then inl ZeroDivisionError else inr (a mod b).

(** [l[i]] on a Python list: a negative index counts from the end, an index
    outside [-len, len) raises. *)
Definition py_getitem {A : Type} (l : list A) (i : Z) : PyExc + A :=
  let n := Z.of_nat (List.length l) in
  let j := if i <? 0 then i + n else i in
  if (j <? 0) || (n <=? j) then inl IndexError
  else match nth_error l (Z.to_nat j) with
       | Some x => inr x
       | None => inl IndexError
       end.

(** [s.split(sep)] for a one-character separator: every occurrence of the
    separator cuts, so adjacent separators give empty fields and the empty
    string gives one empty field. *)
Fixpoint str_split (sep : ascii) (s : string) : list string :=
  match s with
  | EmptyString => [EmptyString]
  | String c rest =>
      if Ascii.eqb c sep then EmptyString :: str_split sep rest
      else match str_split sep rest with
           | [] => [String c EmptyString]
           | w :: ws => String c w :: ws
           end
  end.

Fixpoint lstrip_chars (chars : list ascii) (l : list ascii) : list ascii :=
  match l with
  | [] => []
  | c :: rest =>
      if existsb (Ascii.eqb c) chars then lstrip_chars chars rest else l
  end.

(** [s.strip(chars)]: drop leading and trailing characters that are in
    [chars]. *)
Definition str_strip_chars (chars : string) (s : string) : string :=
  let cs := list_ascii_of_string chars in
  string_of_list_ascii
    (rev (lstrip_chars cs (rev (lstrip_chars cs (list_ascii_of_string s))))).

(** The two quote characters, double and single, that
    [_extract_output_keys] strips from a key. *)
Definition quote_chars : string :=
  String (ascii_of_nat 34) (String (ascii_of_nat 39) EmptyString).

(** A dict built by inserting [keys] in order: a repeated key keeps the
    position of its first insertion. *)
Fixpoint dict_keys (keys : list string) : list string :=
  match keys with
  | [] => []
  | k :: rest =>
      k :: filter (fun k' => negb (String.eqb k k')) (dict_keys rest)
  end.

(** The regular expressions of [_extract_output_keys], in source order:
    the bracketed list after [output_keys:], the comma list after [keys:] or
    [with keys:] (both searched with [re.IGNORECASE]), a quoted key inside
    braces, and a quoted key followed by a colon. *)
Inductive Pattern : Type :=
| pat_output_keys_list
| pat_keys_inline
| pat_json_object_key
| pat_json_key.

(** What [mock.py] takes from Python's standard library and does not define:
    regular-expression search, the iteration order of a [set], whitespace
    stripping (Unicode-aware) and JSON printing.  They are reached only on the
    [json_mode=True] path. *)
Record PyLib : Type := {
  (** [re.search(pattern, s, flags)]: group 1 of the leftmost match. *)
  re_search : Pattern -> string -> option string;
  (** [re.findall(pattern, s)] for a pattern with one group. *)
  re_findall : Pattern -> string -> list string;
  (** [list(set(xs))]. *)
  list_of_set : list string -> list string;
  (** [s.strip()]. *)
  str_strip : string -> string;
  (** [json.dumps(d, indent=2)] for a dict of strings, in insertion order. *)
  json_dumps_indent2 : list (string * string) -> string
}.

(** [json.dumps(d, indent=2)] for keys and values that need no escape: one
    entry per line, indented by two spaces, between braces. *)
Definition json_plain_indent2 (d : list (string * string)) : string :=
  let quote := String (ascii_of_nat 34) EmptyString in
  let newline := String (ascii_of_nat 10) EmptyString in
  match d with
  | [] => "{}"
  | _ :: _ =>
      "{" ++ newline
      ++ String.concat ("," ++ newline)
           (map (fun entry =>
                   "  " ++ quote ++ fst entry ++ quote ++ ": "
                   ++ quote ++ snd entry ++ quote) d)
      ++ newline ++ "}"
  end.

(** The library as it behaves on prompts in which no pattern matches (so
    that nothing is stripped and no set is listed); it is the concrete
    library of the worked examples. *)
Definition lib_no_match : PyLib := {|
  re_search := fun _ _ => None;
  re_findall := fun _ _ => [];
  list_of_set := fun xs => xs;
  str_strip := fun s => s;
  json_dumps_indent2 := json_plain_indent2
|}.

(** ** Stream events *)

(** Modelled from the spec: the module [framework.llm.stream_events] is not
    among the sources; the variants and their fields are those of the spec's
    data model.  The fields of the three auxiliary events are not given and
    are carried as one opaque payload.  A token count of [None] stands for a
    [FinishEvent] built without that keyword, left at the declaration's
    default. *)
Inductive StreamEvent : Type :=
| TextDeltaEvent (content snapshot : string)
| TextEndEvent (full_text : string)
| ToolCallEvent (tool_use_id tool_name : string) (tool_input : PyVal)
| ToolResultEvent (payload : PyVal)
| ReasoningStartEvent (payload : PyVal)
| ReasoningDeltaEvent (payload : PyVal)
| FinishEvent (stop_reason model_name : string)
              (input_tokens output_tokens : option Z)
| StreamErrorEvent (error : string) (recoverable : bool).

(** ** Objects held by reference

    The [messages] and [tools] lists that a caller passes to [stream] are
    Python objects, and [stream] keeps the objects themselves, not copies.
    An object is named by its address; its content lives in the heap, which
    belongs to the caller and which [stream] neither reads nor writes. *)
Definition Ref : Type := nat.

Definition Heap : Type := Ref -> list PyVal.

(** The caller changes a list object in place (append, clear, slice
    assignment): the object at [r] now holds [content]. *)
Definition heap_set (heap : Heap) (r : Ref) (content : list PyVal) : Heap :=
  fun r' => if Nat.eqb r' r then content else heap r'.

(** ** Provider state *)

(** One entry of [self.stream_calls]:
    [{"messages": messages, "system": system, "tools": tools}], the two lists
    by reference. *)
Record StreamCall : Type := mkStreamCall {
  call_messages : Ref;
  call_system : string;
  call_tools : option Ref
}.

Record MockLLMProvider : Type := mkProvider {
  model : string;
  scenarios : list (list StreamEvent);
  _call_index : Z;
  stream_calls : list StreamCall
}.

(** [MockLLMProvider(model, scenarios)]; [scenarios or []]. *)
Definition __init__ (model : string)
    (scenarios : option (list (list StreamEvent))) : MockLLMProvider :=
  {| model := model;
     scenarios := match scenarios with
                  | Some (s :: ss) => s :: ss
                  | _ => []
                  end;
     _call_index := 0;
     stream_calls := [] |}.

Definition default_model : string := "mock-model".

(** ** The mock response text *)

Section MockResponse.

Variable lib : PyLib.

Definition _extract_output_keys (system : string) : list string :=
  match re_search lib pat_output_keys_list system with
  | Some keys_str =>
      map (fun k => str_strip_chars quote_chars (str_strip lib k))
          (str_split "," keys_str)
  | None =>
      match re_search lib pat_keys_inline system with
      | Some keys_str =>
          map (str_strip lib)
              (filter (fun k => negb (String.eqb (str_strip lib k) EmptyString))
                      (str_split "," keys_str))
      | None =>
          match re_search lib pat_json_object_key system with
          | Some _ =>
              match re_findall lib pat_json_key system with
              | [] => []
              | m :: ms => list_of_set lib (m :: ms)
              end
          | None => []
          end
      end
  end.

Definition _generate_mock_response (system : string) (json_mode : bool)
    : string :=
  if json_mode then
    match _extract_output_keys system with
    | k :: ks =>
        json_dumps_indent2 lib
          (map (fun key => (key, "mock_" ++ key ++ "_value"))
               (dict_keys (k :: ks)))
    | [] => json_dumps_indent2 lib [("result", "mock_result_value")]
    end
  else "This is a mock response for testing purposes.".

End MockResponse.

(** ** Scenario helpers

    The keyword defaults of the source ([input_tokens=10], [output_tokens=5],
    [tool_use_id="call_1"], [text=""], [error="Connection lost"],
    [recoverable=False]) are written out at each use. *)

Definition text_scenario (text : string) (input_tokens output_tokens : Z)
    : list StreamEvent :=
  [ TextDeltaEvent text text;
    FinishEvent "stop" "mock" (Some input_tokens) (Some output_tokens) ].

Definition tool_call_scenario (tool_name : string) (tool_input : PyVal)
    (tool_use_id : string) (text : string) : list StreamEvent :=
  ((match text with
    | EmptyString => []
    | String _ _ => [TextDeltaEvent text text]
    end)
   ++ [ ToolCallEvent tool_use_id tool_name tool_input;
        FinishEvent "tool_calls" "mock" (Some 10) (Some 5) ])%list.

Definition error_scenario (error : string) (recoverable : bool)
    : list StreamEvent :=
  [ StreamErrorEvent error recoverable ].

(** ** The stream generator

    [stream] is an [async def] with [yield]: calling it builds a generator
    object and runs none of the body; each [__anext__] runs the body up to
    the next [yield], the end of the body or an exception.  The provider is
    shared by reference between the caller and every generator made from it,
    so it is threaded through each resumption. *)

(** The arguments of one call. *)
Record StreamArgs : Type := mkArgs {
  messages : Ref;
  system : string;
  tools : option Ref;
  max_tokens : Z
}.

(** [stream(messages)] with the declared defaults. *)
Definition default_args (messages : Ref) : StreamArgs :=
  mkArgs messages "" None 4096.

(** Where a generator made by [stream] is suspended:
    - [Created]: the body has not started;
    - [InScenario]: at [yield event], with the events still to come;
    - [InWords]: at [yield TextDeltaEvent(...)], with the next index of
      [enumerate], the words still to come and the text so far;
    - [AfterTextEnd]: at [yield TextEndEvent(...)];
    - [AfterFinish]: at [yield FinishEvent(...)];
    - [Closed]: the body has returned or raised. *)
Inductive StreamGen : Type :=
| Created (args : StreamArgs)
| InScenario (remaining : list StreamEvent)
| InWords (i : nat) (remaining : list string) (accumulated : string)
| AfterTextEnd
| AfterFinish
| Closed.

(** What one [__anext__] gives the consumer. *)
Inductive Outcome : Type :=
| Yield (event : StreamEvent)
| StopAsyncIteration
| Raise (exc : PyExc).

(** [self.stream_calls.append({...})]: the record keeps the system string
    and the two list objects themselves. *)
Definition record_call (self : MockLLMProvider) (args : StreamArgs)
    : MockLLMProvider :=
  {| model := model self;
     scenarios := scenarios self;
     _call_index := _call_index self;
     stream_calls :=
       (stream_calls self
          ++ [mkStreamCall (messages args) (system args) (tools args)])%list
  |}.

(** [self._call_index += 1] *)
Definition advance_index (self : MockLLMProvider) : MockLLMProvider :=
  {| model := model self;
     scenarios := scenarios self;
     _call_index := _call_index self + 1;
     stream_calls := stream_calls self |}.

(** [for event in events: yield event] resumed with [remaining] to go. *)
Definition for_events (self : MockLLMProvider) (remaining : list StreamEvent)
    : MockLLMProvider * StreamGen * Outcome :=
  match remaining with
  | [] => (self, Closed, StopAsyncIteration)
  | event :: rest => (self, InScenario rest, Yield event)
  end.

(** [for i, word in enumerate(words): ...] resumed at index [i]; when the words
    run out the body goes on to [yield TextEndEvent(full_text=accumulated)]. *)
Definition for_words (self : MockLLMProvider) (i : nat)
    (remaining : list string) (accumulated : string)
    : MockLLMProvider * StreamGen * Outcome :=
  match remaining with
  | [] => (self, AfterTextEnd, Yield (TextEndEvent accumulated))
  | word :: rest =>
      let chunk := if Nat.eqb i 0 then word else " " ++ word in
      let accumulated := accumulated ++ chunk in
      (self, InWords (S i) rest accumulated,
       Yield (TextDeltaEvent chunk accumulated))
  end.

(** How [async for event in gen: events.append(event)] ends. *)
Inductive Collected : Type :=
| Returned (events : list StreamEvent)
| Propagated (exc : PyExc).

Section Stream.

Variable lib : PyLib.

(** The call itself: a fresh generator, the provider untouched. *)
Definition stream (self : MockLLMProvider) (args : StreamArgs)
    : MockLLMProvider * StreamGen :=
  (self, Created args).

(** One resumption of the body of [stream]. *)
Definition __anext__ (self : MockLLMProvider) (gen : StreamGen)
    : MockLLMProvider * StreamGen * Outcome :=
  match gen with
  | Created args =>
      let self := record_call self args in
      match scenarios self with
      | _ :: _ =>
          match py_mod (_call_index self)
                       (Z.of_nat (List.length (scenarios self))) with
          | inl exc => (self, Closed, Raise exc)
          | inr k =>
              match py_getitem (scenarios self) k with
              | inl exc => (self, Closed, Raise exc)
              | inr events => for_events (advance_index self) events
              end
          end
      | [] =>
          let content := _generate_mock_response lib (system args) false in
          let words := str_split " " content in
          for_words self 0 words EmptyString
      end
  | InScenario remaining => for_events self remaining
  | InWords i remaining accumulated => for_words self i remaining accumulated
  | AfterTextEnd =>
      (self, AfterFinish,
       Yield (FinishEvent "mock_complete" (model self) None None))
  | AfterFinish => (self, Closed, StopAsyncIteration)
  | Closed => (self, Closed, StopAsyncIteration)
  end.

(** A consumer that asks for the next item [n] times. *)
Fixpoint pull (n : nat) (self : MockLLMProvider) (gen : StreamGen)
    : MockLLMProvider * StreamGen * list Outcome :=
  match n with
  | O => (self, gen, [])
  | S n' =>
      let '(self1, gen1, o) := __anext__ self gen in
      let '(self2, gen2, os) := pull n' self1 gen1 in
      (self2, gen2, o :: os)
  end.

(** [async for event in gen: events.append(event)], with a bound on the
    number of resumptions. *)
Fixpoint async_for (fuel : nat) (self : MockLLMProvider) (gen : StreamGen)
    (events : list StreamEvent) : option (MockLLMProvider * Collected) :=
  match fuel with
  | O => None
  | S fuel' =>
      match __anext__ self gen with
      | (self', gen', Yield event) =>
          async_for fuel' self' gen' (events ++ [event])%list
      | (self', _, StopAsyncIteration) => Some (self', Returned events)
      | (self', _, Raise exc) => Some (self', Propagated exc)
      end
  end.

(** One call consumed to its end, as the test suite's [_collect] does, for
    any arguments. *)
Definition _collect (fuel : nat) (self : MockLLMProvider)
    (args : StreamArgs) : option (MockLLMProvider * Collected) :=
  let '(self0, gen) := stream self args in
  async_for fuel self0 gen [].

(** Calls made one after the other, each consumed to its end. *)
Fixpoint collect_all (fuel : nat) (self : MockLLMProvider)
    (calls : list StreamArgs)
    : option (MockLLMProvider * list Collected) :=
  match calls with
  | [] => Some (self, [])
  | args :: rest =>
      match _collect fuel self args with
      | None => None
      | Some (self1, r) =>
          match collect_all fuel self1 rest with
          | None => None
          | Some (self2, rs) => Some (self2, r :: rs)
          end
      end
  end.

(** Calls made one after the other, the [i]-th asked for as many items as
    its count says and then dropped. *)
Fixpoint pull_all (self : MockLLMProvider)
    (calls : list (StreamArgs * nat)) : MockLLMProvider :=
  match calls with
  | [] => self
  | (args, n) :: rest =>
      let '(self0, gen) := stream self args in
      let '(self1, _, _) := pull n self0 gen in
      pull_all self1 rest
  end.

End Stream.

(** ** The vocabulary of the properties *)

(** A terminal event: [FinishEvent] or [StreamErrorEvent]. *)
Definition is_terminal (event : StreamEvent) : bool :=
  match event with
  | FinishEvent _ _ _ _ | StreamErrorEvent _ _ => true
  | _ => false
  end.

Definition is_text_end (event : StreamEvent) : bool :=
  match event with
  | TextEndEvent _ => true
  | _ => false
  end.

Definition is_stream_error (event : StreamEvent) : bool :=
  match event with
  | StreamErrorEvent _ _ => true
  | _ => false
  end.

(** The terminal invariant of an emitted sequence: exactly one terminal
    event, and it is the last element. *)
Definition terminal_invariant (events : list StreamEvent) : bool :=
  Nat.eqb (List.length (filter is_terminal events)) 1
  && match rev events with
     | last :: _ => is_terminal last
     | [] => false
     end.

(** The [(content, snapshot)] pairs of the text deltas, in emission order. *)
Fixpoint text_deltas (events : list StreamEvent) : list (string * string) :=
  match events with
  | [] => []
  | TextDeltaEvent content snapshot :: rest =>
      (content, snapshot) :: text_deltas rest
  | _ :: rest => text_deltas rest
  end.

(** The concatenation of the [content] fields of the text deltas. *)
Definition delta_text (events : list StreamEvent) : string :=
  String.concat EmptyString (map fst (text_deltas events)).

(** The prefix invariant: the snapshot of the [i]-th delta is the
    concatenation of the contents of the deltas up to and including it. *)
Definition prefix_invariant (events : list StreamEvent) : Prop :=
  forall i content snapshot,
    nth_error (text_deltas events) i = Some (content, snapshot) ->
    snapshot
    = String.concat EmptyString
        (map fst (firstn (S i) (text_deltas events))).

(** The reconciliation invariant: every [TextEndEvent] carries the
    concatenation of the contents of the deltas before it, and there is at
    most one [TextEndEvent]. *)
Definition reconciliation_invariant (events : list StreamEvent) : Prop :=
  (forall i full_text,
      nth_error events i = Some (TextEndEvent full_text) ->
      full_text = delta_text (firstn i events))
  /\ (List.length (filter is_text_end events) <= 1)%nat.

(** The spec's splitting rule: the first fragment is the first word, every
    later fragment is one space and then the next word. *)
Definition spec_fragments (words : list string) : list string :=
  match words with
  | [] => []
  | first :: others => first :: map (fun word => " " ++ word) others
  end.

(** The scenario that a first resumption selects:
    [scenarios[_call_index % len(scenarios)]]. *)
Definition selected_scenario (self : MockLLMProvider)
    : option (list StreamEvent) :=
  nth_error (scenarios self)
    (Z.to_nat (_call_index self mod Z.of_nat (List.length (scenarios self)))).

(** The record that a call with [args] leaves in the ledger. *)
Definition call_record (args : StreamArgs) : StreamCall :=
  mkStreamCall (messages args) (system args) (tools args).

(** The deltas that the fallback loop emits from index [i] on, and the text
    it has accumulated when the words run out. *)
Fixpoint word_deltas (i : nat) (words : list string) (accumulated : string)
    : list StreamEvent :=
  match words with
  | [] => []
  | word :: rest =>
      let chunk := if Nat.eqb i 0 then word else " " ++ word in
      TextDeltaEvent chunk (accumulated ++ chunk)
      :: word_deltas (S i) rest (accumulated ++ chunk)
  end.

Fixpoint words_text (i : nat) (words : list string) (accumulated : string)
    : string :=
  match words with
  | [] => accumulated
  | word :: rest =>
      words_text (S i) rest
        (accumulated ++ (if Nat.eqb i 0 then word else " " ++ word))
  end.

(** The whole fallback sequence for a given list of words. *)
Definition fallback_events (model : string) (words : list string)
    : list StreamEvent :=
  (word_deltas 0 words EmptyString
   ++ [ TextEndEvent (words_text 0 words EmptyString);
        FinishEvent "mock_complete" model None None ])%list.

(** The provider once a call has been resumed at least once: the record is
    in the ledger and, when there are scenarios, the index has moved on. *)
Definition stream_effect (self : MockLLMProvider) (args : StreamArgs)
    : MockLLMProvider :=
  match scenarios self with
  | [] => record_call self args
  | _ :: _ => advance_index (record_call self args)
  end.

(** A number of resumptions that is enough to consume any call on [self]:
    more than the longest scenario, and more than the ten events of the
    fallback sequence. *)
Definition fuel_bound (self : MockLLMProvider) : nat :=
  Nat.max (list_max (map (@List.length StreamEvent) (scenarios self))) 10.

(** The events of a call consumed to its end: the fallback sequence when the
    store is empty, the selected scenario otherwise. *)
Definition stream_events (lib : PyLib) (self : MockLLMProvider)
    (args : StreamArgs) : list StreamEvent :=
  match scenarios self with
  | [] =>
      fallback_events (model self)
        (str_split " " (_generate_mock_response lib (system args) false))
  | _ :: _ =>
      match selected_scenario self with
      | Some events => events
      | None => []
      end
  end.

(** The events of calls made one after the other. *)
Fixpoint all_events (lib : PyLib) (self : MockLLMProvider)
    (calls : list StreamArgs) : list Collected :=
  match calls with
  | [] => []
  | args :: rest =>
      Returned (stream_events lib self args)
      :: all_events lib (stream_effect self args) rest
  end.

(** A generator whose body has begun to run. *)
Definition started (gen : StreamGen) : Prop :=
  match gen with
  | Created _ => False
  | _ => True
  end.

(** ** The non-streaming completions *)

(** The class [LLMResponse] is declared in [framework/llm/provider.py], which
    is not among the sources; the record has the keyword arguments that
    [mock.py] builds it with. *)
Record LLMResponse : Type := mkResponse {
  response_content : string;
  response_model : string;
  response_input_tokens : Z;
  response_output_tokens : Z;
  response_stop_reason : string
}.

(** [needle in haystack] on strings: [needle] occurs at some position. *)
Fixpoint str_contains (needle haystack : string) : bool :=
  String.prefix needle haystack
  || match haystack with
     | EmptyString => false
     | String _ rest => str_contains needle rest
     end.

Section Completions.

Variable lib : PyLib.

(** [s.lower()], which is Unicode-aware and taken from the library like the
    members of [PyLib]. *)
Variable str_lower : string -> string.

(** [complete] reads [self.model] and writes nothing, so it returns the
    response alone; it keeps none of its arguments, which are taken by
    value. *)
Definition complete (self : MockLLMProvider) (messages : list PyVal)
    (system : string) (tools : option (list PyVal)) (max_tokens : Z)
    (response_format : option PyVal) (json_mode : bool) : LLMResponse :=
  let content := _generate_mock_response lib system json_mode in
  {| response_content := content;
     response_model := model self;
     response_input_tokens := 0;
     response_output_tokens := 0;
     response_stop_reason := "mock_complete" |}.

(** [complete_with_tools]; the executor maps a tool use to a tool result. *)
Definition complete_with_tools (self : MockLLMProvider)
    (messages : list PyVal) (system : string) (tools : list PyVal)
    (tool_executor : PyVal -> PyVal) (max_iterations : Z) : LLMResponse :=
  let json_mode :=
    str_contains "json" (str_lower system)
    || str_contains "output_keys" (str_lower system) in
  let content := _generate_mock_response lib system json_mode in
  {| response_content := content;
     response_model := model self;
     response_input_tokens := 0;
     response_output_tokens := 0;
     response_stop_reason := "mock_complete" |}.

End Completions.

(** ** More vocabulary *)

(** The events a suspended generator has still to yield; the finish event
    will carry the model name it reads then. *)
Definition remaining_events (model : string) (gen : StreamGen)
    : list StreamEvent :=
  match gen with
  | Created _ => []
  | InScenario remaining => remaining
  | InWords i remaining accumulated =>
      (word_deltas i remaining accumulated
       ++ [ TextEndEvent (words_text i remaining accumulated);
            FinishEvent "mock_complete" model None None ])%list
  | AfterTextEnd => [FinishEvent "mock_complete" model None None]
  | AfterFinish => []
  | Closed => []
  end.

(** The events an outcome hands over: one or none. *)
Definition yielded (o : Outcome) : list StreamEvent :=
  match o with
  | Yield event => [event]
  | _ => []
  end.

(** What the [k]-th request gets from a call whose whole sequence is
    [events]: the [k]-th event, or the end of the iteration. *)
Definition outcome_at (events : list StreamEvent) (k : nat) : Outcome :=
  match nth_error events k with
  | Some event => Yield event
  | None => StopAsyncIteration
  end.

(** A call of [pull_all] that was asked for at least one item. *)
Definition pulled (call : StreamArgs * nat) : bool :=
  negb (Nat.eqb (snd call) 0).

(** The number of occurrences of a character. *)
Fixpoint count_char (c : ascii) (s : string) : nat :=
  match s with
  | EmptyString => O
  | String c' rest =>
      ((if Ascii.eqb c' c then 1 else 0) + count_char c rest)%nat
  end.

(** The fallback branch of [stream] from [words = content.split(" ")] on,
    for a response text [content], consumed to its end. *)
Definition stream_text (lib : PyLib) (fuel : nat) (self : MockLLMProvider)
    (content : string) : option (MockLLMProvider * Collected) :=
  match for_words self 0 (str_split " " content) EmptyString with
  | (self', gen', Yield event) => async_for lib fuel self' gen' [event]
  | (self', _, StopAsyncIteration) => Some (self', Returned [])
  | (self', _, Raise exc) => Some (self', Propagated exc)
  end.

(** A scenario made by one of the three helpers. *)
Inductive helper_built : list StreamEvent -> Prop :=
| built_text (text : string) (input_tokens output_tokens : Z) :
    helper_built (text_scenario text input_tokens output_tokens)
| built_tool_call (tool_name : string) (tool_input : PyVal)
    (tool_use_id text : string) :
    helper_built (tool_call_scenario tool_name tool_input tool_use_id text)
| built_error (error : string) (recoverable : bool) :
    helper_built (error_scenario error recoverable).

(** The library as it behaves on the prompt [output_keys: []]: the bracket
    pattern matches with an empty group. *)
Definition lib_empty_brackets : PyLib := {|
  re_search := fun pattern _ =>
    match pattern with
    | pat_output_keys_list => Some EmptyString
    | _ => None
    end;
  re_findall := fun _ _ => [];
  list_of_set := fun xs => xs;
  str_strip := fun s => s;
  json_dumps_indent2 := json_plain_indent2
|}.

(** The library as it behaves on the prompt [keys: name,,age]: the bracket
    pattern does not match, the inline pattern matches with the group
    [name,,age], and stripping leaves these fields as they are. *)
Definition lib_inline_keys : PyLib := {|
  re_search := fun pattern _ =>
    match pattern with
    | pat_keys_inline => Some "name,,age"
    | _ => None
    end;
  re_findall := fun _ _ => [];
  list_of_set := fun xs => xs;
  str_strip := fun s => s;
  json_dumps_indent2 := json_plain_indent2
|}.

(** ** The caller *)

(** What a caller does: it makes a call and asks the returned generator for
    [n] items before dropping it, or it changes one of its list objects in
    place. *)
Inductive CallerStep : Type :=
| CallStream (args : StreamArgs) (n : nat)
| Mutate (r : Ref) (content : list PyVal).

(** The provider and the heap after the caller's steps. *)
Fixpoint run_caller (lib : PyLib) (self : MockLLMProvider) (heap : Heap)
    (steps : list CallerStep) : MockLLMProvider * Heap :=
  match steps with
  | [] => (self, heap)
  | CallStream args n :: rest =>
      let '(self0, gen) := stream self args in
      let '(self1, _, _) := pull lib n self0 gen in
      run_caller lib self1 heap rest
  | Mutate r content :: rest =>
      run_caller lib self (heap_set heap r content) rest
  end.

(** The arguments of the calls that were asked for at least one item. *)
Fixpoint recorded (steps : list CallerStep) : list StreamArgs :=
  match steps with
  | [] => []
  | CallStream args (S _) :: rest => args :: recorded rest
  | _ :: rest => recorded rest
  end.

(** Whether some step changes the object at [r]. *)
Definition mutated (r : Ref) (steps : list CallerStep) : bool :=
  existsb (fun step =>
             match step with
             | Mutate r' _ => Nat.eqb r' r
             | CallStream _ _ => false
             end) steps.

(** What a record shows when the ledger is read: the contents that its
    objects have then. *)
Definition read_call (heap : Heap) (call : StreamCall)
    : list PyVal * string * option (list PyVal) :=
  (heap (call_messages call), call_system call,
   option_map heap (call_tools call)).

(** Sample data for the worked examples. *)
Definition msg_hi : Ref := 0%nat.

Definition msg_none : Ref := 1%nat.

Definition tool_search : Ref := 2%nat.

(** A heap in which [msg_hi] holds one user message, [msg_none] is an empty
    list and [tool_search] holds one tool. *)
Definition sample_heap : Heap :=
  fun r =>
    match r with
    | 0%nat => [PyDict [("role", PyStr "user"); ("content", PyStr "hi")]]
    | 2%nat => [PyDict [("name", PyStr "search")]]
    | _ => []
    end.

(** * Properties *)

(** ** The test suite, replayed *)

Example test_default_no_scenarios :
  _collect lib_no_match 20 (__init__ default_model None) (default_args msg_hi)
  = Some
      ({| model := "mock-model"; scenarios := []; _call_index := 0;
          stream_calls := [mkStreamCall msg_hi "" None] |},
       Returned
         [ TextDeltaEvent "This" "This";
           TextDeltaEvent " is" "This is";
           TextDeltaEvent " a" "This is a";
           TextDeltaEvent " mock" "This is a mock";
           TextDeltaEvent " response" "This is a mock response";
           TextDeltaEvent " for" "This is a mock response for";
           TextDeltaEvent " testing" "This is a mock response for testing";
           TextDeltaEvent " purposes."
             "This is a mock response for testing purposes.";
           TextEndEvent "This is a mock response for testing purposes.";
           FinishEvent "mock_complete" "mock-model" None None ]).
Proof. reflexivity. Qed.

Example test_scenario_wraps_around :
  let provider := __init__ default_model (Some [text_scenario "only" 10 5]) in
  option_map
    (fun r => (_call_index (fst r), snd r))
    (collect_all lib_no_match 5 provider
       [default_args msg_hi; default_args msg_hi; default_args msg_hi])
  = Some (3, [ Returned (text_scenario "only" 10 5);
               Returned (text_scenario "only" 10 5);
               Returned (text_scenario "only" 10 5) ]).
Proof. reflexivity. Qed.

Example test_call_recording :
  let provider := __init__ default_model (Some [text_scenario "ok" 10 5]) in
  option_map
    (fun r => stream_calls (fst r))
    (_collect lib_no_match 5 provider
       (mkArgs msg_hi "Be helpful" (Some tool_search) 4096))
  = Some [mkStreamCall msg_hi "Be helpful" (Some tool_search)].
Proof. reflexivity. Qed.

(** Two overlapping calls: the generator resumed first is served first,
    whichever was created first. *)
Example overlapping_calls_are_served_in_pull_order :
  let provider :=
    __init__ default_model
      (Some [text_scenario "first" 10 5; text_scenario "second" 10 5]) in
  let gen1 := snd (stream provider (default_args msg_hi)) in
  let gen2 := snd (stream provider (default_args msg_none)) in
  let step2 := __anext__ lib_no_match provider gen2 in
  let step1 := __anext__ lib_no_match (fst (fst step2)) gen1 in
  snd step2 = Yield (TextDeltaEvent "first" "first")
  /\ snd step1 = Yield (TextDeltaEvent "second" "second")
  /\ map call_messages (stream_calls (fst (fst step1))) = [msg_none; msg_hi].
Proof. repeat split. Qed.

Example mock_response_json_mode :
  _generate_mock_response lib_no_match "no hints here" true
  = json_plain_indent2 [("result", "mock_result_value")]
  /\ _generate_mock_response lib_no_match "no hints here" false
     = "This is a mock response for testing purposes.".
Proof. split; reflexivity. Qed.

Example test_error_scenario :
  option_map snd
    (_collect lib_no_match 5
       (__init__ default_model (Some [error_scenario "Connection lost" false]))
       (default_args msg_hi))
  = Some (Returned [StreamErrorEvent "Connection lost" false]).
Proof. reflexivity. Qed.

(** ** Indexing the scenario store is safe *)

Lemma py_mod_len (a : Z) (n : nat) :
  n <> O ->
  py_mod a (Z.of_nat n) = inr (a mod Z.of_nat n)
  /\ 0 <= a mod Z.of_nat n < Z.of_nat n.
Proof.
  intros Hn. unfold py_mod.
  destruct (Z.eqb_spec (Z.of_nat n) 0) as [E | E]; [lia |].
  split; [reflexivity | apply Z.mod_pos_bound; lia].
Qed.

Lemma py_getitem_in_range {A : Type} (l : list A) (k : Z) :
  0 <= k < Z.of_nat (List.length l) ->
  exists x, nth_error l (Z.to_nat k) = Some x /\ py_getitem l k = inr x.
Proof.
  intros [Hlo Hhi]. unfold py_getitem.
  assert (Hneg : (k <? 0) = false) by (apply Z.ltb_ge; lia).
  assert (Hin : (Z.of_nat (List.length l) <=? k) = false)
    by (apply Z.leb_gt; lia).
  rewrite Hneg, Hneg, Hin. cbn [orb].
  destruct (nth_error l (Z.to_nat k)) as [x |] eqn:E.
  - exists x. split; reflexivity.
  - apply nth_error_None in E. lia.
Qed.

Lemma selected_scenario_some (self : MockLLMProvider) :
  scenarios self <> [] ->
  exists events,
    selected_scenario self = Some events
    /\ py_getitem (scenarios self)
         (_call_index self mod Z.of_nat (List.length (scenarios self)))
       = inr events.
Proof.
  intros Hne. unfold selected_scenario.
  assert (Hlen : List.length (scenarios self) <> O)
    by (destruct (scenarios self); [congruence | discriminate]).
  destruct (py_mod_len (_call_index self) _ Hlen) as [_ Hrange].
  apply py_getitem_in_range. exact Hrange.
Qed.

Section StreamFacts.

Variable lib : PyLib.

(** The first resumption, case by case on the store. *)
Lemma anext_created_empty (self : MockLLMProvider) (args : StreamArgs) :
  scenarios self = [] ->
  __anext__ lib self (Created args)
  = for_words (record_call self args) 0
      (str_split " " (_generate_mock_response lib (system args) false))
      EmptyString.
Proof.
  intros He. unfold __anext__. cbn [record_call scenarios]. rewrite He.
  reflexivity.
Qed.

Lemma anext_created_scenario (self : MockLLMProvider) (args : StreamArgs)
    (events : list StreamEvent) :
  scenarios self <> [] ->
  selected_scenario self = Some events ->
  __anext__ lib self (Created args)
  = for_events (advance_index (record_call self args)) events.
Proof.
  intros Hne Hsel.
  destruct (selected_scenario_some self Hne) as [events' [Hsel' Hget]].
  rewrite Hsel in Hsel'. injection Hsel' as <-.
  assert (Hlen : List.length (scenarios self) <> O)
    by (destruct (scenarios self); [congruence | discriminate]).
  destruct (py_mod_len (_call_index self) _ Hlen) as [Hmod _].
  unfold __anext__. cbn [record_call scenarios _call_index].
  destruct (scenarios self) as [| sc scs] eqn:Hs; [congruence |].
  rewrite Hmod, Hget. reflexivity.
Qed.

End StreamFacts.

(** Case analysis on the first resumption: the fallback loop with its first
    word (or none), or the selected scenario with its first event (or none). *)
Ltac first_resumption self args :=
  let Hs := fresh "Hs" in
  let Hne := fresh "Hne" in
  let events := fresh "events" in
  let Hsel := fresh "Hsel" in
  destruct (scenarios self) eqn:Hs;
  [ rewrite (anext_created_empty _ self args Hs);
    unfold for_words; destruct (str_split _ _)
  | assert (Hne : scenarios self <> []) by congruence;
    destruct (selected_scenario_some self Hne) as [events [Hsel _]];
    rewrite (anext_created_scenario _ self args events Hne Hsel);
    unfold for_events; destruct events ].

Ltac later_resumption rem :=
  cbn [__anext__]; unfold for_events, for_words; try destruct rem.

Section Resumptions.

Variable lib : PyLib.

(** No resumption raises. *)
Lemma anext_never_raises (self : MockLLMProvider) (gen : StreamGen)
    (exc : PyExc) :
  snd (__anext__ lib self gen) <> Raise exc.
Proof.
  destruct gen as [args | rem | i rem acc | | |];
    [ first_resumption self args | later_resumption rem .. ]; discriminate.
Qed.

(** The provider's model and scenarios survive every resumption. *)
Lemma anext_frame (self : MockLLMProvider) (gen : StreamGen) :
  model (fst (fst (__anext__ lib self gen))) = model self
  /\ scenarios (fst (fst (__anext__ lib self gen))) = scenarios self.
Proof.
  destruct gen as [args | rem | i rem acc | | |];
    [ first_resumption self args | later_resumption rem .. ];
    cbn; auto.
Qed.

(** After the first resumption the provider is never written again. *)

Lemma anext_started (self : MockLLMProvider) (gen : StreamGen) :
  started gen ->
  fst (fst (__anext__ lib self gen)) = self
  /\ started (snd (fst (__anext__ lib self gen))).
Proof.
  destruct gen as [args | rem | i rem acc | | |]; cbn [started];
    intros H; try contradiction; later_resumption rem; cbn; auto.
Qed.

Lemma anext_starts (self : MockLLMProvider) (gen : StreamGen) :
  started (snd (fst (__anext__ lib self gen))).
Proof.
  destruct gen as [args | rem | i rem acc | | |];
    [ first_resumption self args | later_resumption rem .. ]; exact I.
Qed.

Lemma pull_started (n : nat) :
  forall self gen,
    started gen -> fst (fst (pull lib n self gen)) = self.
Proof.
  induction n as [| n IH]; intros self gen Hst; [reflexivity |].
  cbn [pull].
  destruct (anext_started self gen Hst) as [Hself Hgen].
  destruct (__anext__ lib self gen) as [[self1 gen1] o] eqn:E.
  cbn [fst snd] in Hself, Hgen. subst self1.
  specialize (IH self gen1 Hgen).
  destruct (pull lib n self gen1) as [[self2 gen2] os].
  exact IH.
Qed.

(** The provider after at least one resumption is the provider after the
    first. *)
Lemma pull_S_state (n : nat) (self : MockLLMProvider) (gen : StreamGen) :
  fst (fst (pull lib (S n) self gen)) = fst (fst (__anext__ lib self gen)).
Proof.
  cbn [pull].
  pose proof (anext_starts self gen) as Hst.
  destruct (__anext__ lib self gen) as [[self1 gen1] o].
  cbn [fst snd] in *.
  pose proof (pull_started n self1 gen1 Hst) as H.
  destruct (pull lib n self1 gen1) as [[self2 gen2] os].
  exact H.
Qed.

End Resumptions.

(** ** Consuming a call to its end *)

Section Collecting.

Variable lib : PyLib.

Lemma async_for_scenario (remaining : list StreamEvent) :
  forall fuel self events,
    (List.length remaining < fuel)%nat ->
    async_for lib fuel self (InScenario remaining) events
    = Some (self, Returned (events ++ remaining)%list).
Proof.
  induction remaining as [| event rest IH]; intros fuel self events Hfuel;
    destruct fuel as [| fuel]; cbn [List.length] in Hfuel; try lia.
  - cbn. rewrite app_nil_r. reflexivity.
  - cbn [async_for __anext__ for_events].
    rewrite IH by lia. rewrite <- app_assoc. reflexivity.
Qed.

Lemma async_for_words (remaining : list string) :
  forall fuel self i accumulated events,
    (List.length remaining + 2 < fuel)%nat ->
    async_for lib fuel self (InWords i remaining accumulated) events
    = Some (self,
            Returned
              (events
               ++ word_deltas i remaining accumulated
               ++ [ TextEndEvent (words_text i remaining accumulated);
                    FinishEvent "mock_complete" (model self) None None ])%list).
Proof.
  induction remaining as [| word rest IH];
    intros fuel self i accumulated events Hfuel;
    cbn [List.length] in Hfuel.
  - destruct fuel as [| [| [| fuel]]]; try lia.
    cbn. rewrite <- app_assoc. reflexivity.
  - destruct fuel as [| fuel]; try lia.
    cbn [async_for __anext__ for_words].
    rewrite IH by lia.
    cbn [word_deltas words_text]. rewrite <- app_assoc. reflexivity.
Qed.

(** A call on a provider without scenarios, consumed to its end. *)
Lemma collect_fallback (self : MockLLMProvider) (args : StreamArgs)
    (fuel : nat) :
  scenarios self = [] ->
  let words :=
    str_split " " (_generate_mock_response lib (system args) false) in
  (List.length words + 2 < fuel)%nat ->
  _collect lib fuel self args
  = Some (record_call self args,
          Returned (fallback_events (model self) words)).
Proof.
  intros He words Hfuel. unfold _collect, stream.
  destruct fuel as [| fuel]; [lia |].
  cbn [async_for]. rewrite (anext_created_empty lib self args He).
  fold words. destruct words as [| word rest]; cbn [List.length] in Hfuel.
  - destruct fuel as [| [| fuel]]; try lia. reflexivity.
  - cbn [for_words]. rewrite async_for_words by lia.
    reflexivity.
Qed.

(** A call on a provider with scenarios, consumed to its end. *)
Lemma collect_scenario (self : MockLLMProvider) (args : StreamArgs)
    (events : list StreamEvent) (fuel : nat) :
  scenarios self <> [] ->
  selected_scenario self = Some events ->
  (List.length events < fuel)%nat ->
  _collect lib fuel self args
  = Some (advance_index (record_call self args), Returned events).
Proof.
  intros Hne Hsel Hfuel. unfold _collect, stream.
  destruct fuel as [| fuel]; [lia |].
  cbn [async_for].
  rewrite (anext_created_scenario lib self args events Hne Hsel).
  destruct events as [| event rest]; cbn [for_events]; [reflexivity |].
  cbn [List.length] in Hfuel.
  rewrite async_for_scenario by lia. reflexivity.
Qed.

End Collecting.

(** ** What a call writes, and when *)

Section Effects.

Variable lib : PyLib.

Lemma anext_created_state (self : MockLLMProvider) (args : StreamArgs) :
  fst (fst (__anext__ lib self (Created args))) = stream_effect self args.
Proof.
  unfold stream_effect. first_resumption self args; reflexivity.
Qed.

Lemma pull_S_created (n : nat) (self : MockLLMProvider) (args : StreamArgs) :
  fst (fst (pull lib (S n) self (Created args))) = stream_effect self args.
Proof.
  rewrite pull_S_state. apply anext_created_state.
Qed.

Lemma stream_effect_fields (self : MockLLMProvider) (args : StreamArgs) :
  model (stream_effect self args) = model self
  /\ scenarios (stream_effect self args) = scenarios self
  /\ stream_calls (stream_effect self args)
     = (stream_calls self ++ [call_record args])%list
  /\ _call_index (stream_effect self args)
     = match scenarios self with
       | [] => _call_index self
       | _ :: _ => _call_index self + 1
       end.
Proof.
  unfold stream_effect. destruct (scenarios self) eqn:Hs; cbn; auto.
Qed.

End Effects.

(** C1, as the code has it.  The call itself writes nothing: the provider is
    the same after [stream(...)] returns and after a consumer that asks for
    no item.  The record is appended, and with a non-empty store the index
    advanced, by the first request for an item, before that item is handed
    over; however many further items are requested, the ledger holds exactly
    one record more and the index has moved by exactly one (by nothing when
    the store is empty). *)
Theorem stream_writes_once_on_first_pull (lib : PyLib)
    (self : MockLLMProvider) (args : StreamArgs) (n : nat) :
  fst (stream self args) = self
  /\ fst (fst (pull lib 0 self (snd (stream self args)))) = self
  /\ fst (fst (__anext__ lib self (snd (stream self args))))
     = fst (fst (pull lib (S n) self (snd (stream self args))))
  /\ stream_calls (fst (fst (pull lib (S n) self (snd (stream self args)))))
     = (stream_calls self ++ [call_record args])%list
  /\ _call_index (fst (fst (pull lib (S n) self (snd (stream self args)))))
     = match scenarios self with
       | [] => _call_index self
       | _ :: _ => _call_index self + 1
       end.
Proof.
  unfold stream. cbn [fst snd].
  split; [reflexivity |]. split; [reflexivity |].
  repeat split.
  - symmetry. apply pull_S_state.
  - rewrite pull_S_created. apply stream_effect_fields.
  - rewrite pull_S_created. apply stream_effect_fields.
Qed.

(** C1 as stated fails: a call whose sequence is never asked for an item
    leaves the ledger empty and the index at 0, although the store holds a
    scenario; and on an empty store a fully consumed call leaves the index
    at 0. *)
Lemma stream_call_alone_writes_nothing :
  (stream_calls
     (fst (fst (pull lib_no_match 0
                  (fst (stream
                          (__init__ default_model
                             (Some [text_scenario "only" 10 5]))
                          (default_args msg_hi)))
                  (snd (stream
                          (__init__ default_model
                             (Some [text_scenario "only" 10 5]))
                          (default_args msg_hi))))))
   = []
   /\ _call_index
        (fst (fst (pull lib_no_match 0
                     (fst (stream
                             (__init__ default_model
                                (Some [text_scenario "only" 10 5]))
                             (default_args msg_hi)))
                     (snd (stream
                             (__init__ default_model
                                (Some [text_scenario "only" 10 5]))
                             (default_args msg_hi))))))
      = 0)
  /\ option_map (fun r => _call_index (fst r))
       (_collect lib_no_match 20 (__init__ default_model None)
          (default_args msg_hi))
     = Some 0.
Proof. repeat split. Qed.

(** C9.  However many items are requested, the model name and the scenario
    list are unchanged, and with an empty store so is the call index; a call
    that is never resumed changes nothing, and a call resumed at least once
    leaves exactly the old provider with one record appended and, only when
    the store is non-empty, the index one higher. *)
Theorem stream_frame (lib : PyLib) (self : MockLLMProvider)
    (args : StreamArgs) (n : nat) :
  model (fst (fst (pull lib n self (snd (stream self args))))) = model self
  /\ scenarios (fst (fst (pull lib n self (snd (stream self args)))))
     = scenarios self
  /\ match scenarios self with
     | [] =>
         _call_index (fst (fst (pull lib n self (snd (stream self args)))))
         = _call_index self
     | _ :: _ => True
     end
  /\ fst (stream self args) = self
  /\ fst (fst (pull lib (S n) self (snd (stream self args))))
     = {| model := model self;
          scenarios := scenarios self;
          _call_index := match scenarios self with
                         | [] => _call_index self
                         | _ :: _ => _call_index self + 1
                         end;
          stream_calls :=
            (stream_calls self
               ++ [mkStreamCall (messages args) (system args)
                     (tools args)])%list
       |}.
Proof.
  unfold stream. cbn [fst snd].
  assert (Hn : fst (fst (pull lib n self (Created args))) = self
               \/ fst (fst (pull lib n self (Created args)))
                  = stream_effect self args).
  { destruct n as [| n]; [left; reflexivity | right; apply pull_S_created]. }
  pose proof (stream_effect_fields self args) as [Hm [Hs [Hc Hi]]].
  repeat split.
  - destruct Hn as [-> | ->]; [reflexivity | exact Hm].
  - destruct Hn as [-> | ->]; [reflexivity | exact Hs].
  - destruct (scenarios self) eqn:E; [| exact I].
    destruct Hn as [-> | ->]; [reflexivity | exact Hi].
  - rewrite pull_S_created.
    unfold stream_effect, advance_index, record_call.
    destruct (scenarios self); reflexivity.
Qed.

(** ** Calls in sequence *)

Section Sequences.

Variable lib : PyLib.

Lemma selected_scenario_length (self : MockLLMProvider)
    (events : list StreamEvent) :
  selected_scenario self = Some events ->
  (List.length events <= fuel_bound self)%nat.
Proof.
  intros Hsel. unfold selected_scenario in Hsel.
  apply nth_error_In in Hsel.
  pose proof (proj1 (list_max_le
                       (map (@List.length StreamEvent) (scenarios self))
                       _) (Nat.le_refl _)) as Hall.
  rewrite Forall_forall in Hall.
  specialize (Hall (List.length events) (in_map _ _ _ Hsel)).
  unfold fuel_bound. lia.
Qed.

Lemma fallback_words (text : string) :
  str_split " " (_generate_mock_response lib text false)
  = ["This"; "is"; "a"; "mock"; "response"; "for"; "testing"; "purposes."].
Proof. reflexivity. Qed.

(** Every call can be consumed to its end; what it leaves behind is
    [stream_effect] and what it yields is [stream_events]. *)
Lemma collect_total (self : MockLLMProvider) (args : StreamArgs)
    (fuel : nat) :
  (fuel_bound self < fuel)%nat ->
  _collect lib fuel self args
  = Some (stream_effect self args, Returned (stream_events lib self args)).
Proof.
  intros Hfuel. unfold stream_effect, stream_events.
  destruct (scenarios self) as [| sc scs] eqn:Hs.
  - apply collect_fallback; [exact Hs |].
    rewrite fallback_words. cbn [List.length]. unfold fuel_bound in Hfuel. lia.
  - assert (Hne : scenarios self <> []) by congruence.
    destruct (selected_scenario_some self Hne) as [events [Hsel _]].
    rewrite Hsel.
    apply collect_scenario; [exact Hne | exact Hsel |].
    pose proof (selected_scenario_length self events Hsel). lia.
Qed.

Lemma fuel_bound_stream_effect (self : MockLLMProvider) (args : StreamArgs) :
  fuel_bound (stream_effect self args) = fuel_bound self.
Proof.
  unfold fuel_bound.
  destruct (stream_effect_fields self args) as [_ [-> _]]. reflexivity.
Qed.

Lemma collect_all_total (calls : list StreamArgs) :
  forall self fuel,
    (fuel_bound self < fuel)%nat ->
    collect_all lib fuel self calls
    = Some (fold_left stream_effect calls self, all_events lib self calls).
Proof.
  induction calls as [| args rest IH]; intros self fuel Hfuel;
    [reflexivity |].
  cbn [collect_all fold_left all_events].
  rewrite (collect_total self args fuel Hfuel).
  rewrite IH by (rewrite fuel_bound_stream_effect; exact Hfuel).
  reflexivity.
Qed.

Lemma all_events_length (calls : list StreamArgs) :
  forall self, List.length (all_events lib self calls) = List.length calls.
Proof.
  induction calls as [| args rest IH]; intros self; cbn; [| rewrite IH];
    reflexivity.
Qed.

Lemma ledger_after_calls (calls : list StreamArgs) :
  forall self,
    stream_calls (fold_left stream_effect calls self)
    = (stream_calls self ++ map call_record calls)%list.
Proof.
  induction calls as [| args rest IH]; intros self; cbn [fold_left map].
  - rewrite app_nil_r. reflexivity.
  - rewrite IH.
    destruct (stream_effect_fields self args) as [_ [_ [-> _]]].
    rewrite <- app_assoc. reflexivity.
Qed.


(** Calls asked for any number of items, none included. *)
Lemma pull_all_state (calls : list (StreamArgs * nat)) :
  forall self,
    model (pull_all lib self calls) = model self
    /\ scenarios (pull_all lib self calls) = scenarios self
    /\ stream_calls (pull_all lib self calls)
       = (stream_calls self
          ++ map (fun call => call_record (fst call))
               (filter pulled calls))%list
    /\ _call_index (pull_all lib self calls)
       = match scenarios self with
         | [] => _call_index self
         | _ :: _ =>
             _call_index self + Z.of_nat (List.length (filter pulled calls))
         end.
Proof.
  induction calls as [| [args n] rest IH]; intros self.
  - cbn. rewrite app_nil_r. repeat split.
    destruct (scenarios self); lia.
  - cbn [pull_all]. unfold stream. destruct n as [| n].
    + change (filter pulled ((args, O) :: rest)) with (filter pulled rest).
      cbn [pull]. apply IH.
    + change (filter pulled ((args, S n) :: rest))
        with ((args, S n) :: filter pulled rest).
      pose proof (pull_S_created lib n self args) as Hst.
      destruct (pull lib (S n) self (Created args)) as [[self1 gen1] os].
      cbn [fst] in Hst. subst self1.
      destruct (IH (stream_effect self args)) as [Hm [Hs [Hc Hi]]].
      destruct (stream_effect_fields self args) as [Hm0 [Hs0 [Hc0 Hi0]]].
      rewrite Hm, Hs, Hc, Hi, Hm0, Hs0, Hc0, Hi0.
      repeat split.
      * cbn [map fst]. rewrite <- app_assoc. reflexivity.
      * destruct (scenarios self); [reflexivity |].
        cbn [List.length]. lia.
Qed.

End Sequences.

(** C2, as the code has it.  On a provider built with a non-empty list of
    [s] scenarios, the call that follows earlier calls of which [N] were
    asked for at least one item (consumed to their end or not; a call never
    asked for an item is not counted) yields exactly the events of scenario
    [N mod s], in order and unchanged.  With scenarios [A; B] four calls in
    a row, each consumed to its end, yield [A], [B], [A], [B]; with the
    single scenario [A] every such call yields [A]. *)
Theorem scenario_cycling (lib : PyLib) (m : string) :
  (forall sc scs (prior : list (StreamArgs * nat)) args events fuel,
      nth_error (sc :: scs)
        (List.length (filter pulled prior) mod List.length (sc :: scs))%nat
      = Some events ->
      (List.length events < fuel)%nat ->
      option_map snd
        (_collect lib fuel
           (pull_all lib (__init__ m (Some (sc :: scs))) prior) args)
      = Some (Returned events))
  /\ (forall A B a1 a2 a3 a4 fuel,
         (List.length A < fuel)%nat ->
         (List.length B < fuel)%nat ->
         option_map snd
           (collect_all lib fuel (__init__ m (Some [A; B])) [a1; a2; a3; a4])
         = Some [Returned A; Returned B; Returned A; Returned B])
  /\ (forall A calls fuel,
         (List.length A < fuel)%nat ->
         option_map snd (collect_all lib fuel (__init__ m (Some [A])) calls)
         = Some (map (fun _ => Returned A) calls)).
Proof.
  split; [| split].
  - intros sc scs prior args events fuel Hnth Hfuel.
    set (self0 := __init__ m (Some (sc :: scs))).
    assert (Hne0 : scenarios self0 <> []) by discriminate.
    destruct (pull_all_state lib prior self0) as [_ [Hs [_ Hi]]].
    assert (Hsel : selected_scenario (pull_all lib self0 prior) = Some events).
    { unfold selected_scenario. rewrite Hs, Hi. cbn [self0 __init__ scenarios
        _call_index]. rewrite Z.add_0_l, <- Nat2Z.inj_mod, Nat2Z.id.
      exact Hnth. }
    rewrite (collect_scenario lib _ args events fuel); [reflexivity | | | ].
    + rewrite Hs. exact Hne0.
    + exact Hsel.
    + exact Hfuel.
  - intros A B a1 a2 a3 a4 fuel HA HB. cbn [collect_all].
    repeat (erewrite collect_scenario;
            [ | discriminate | reflexivity | assumption ]).
    reflexivity.
  - intros A calls fuel HA.
    assert (Hgen : forall self,
               scenarios self = [A] ->
               option_map snd (collect_all lib fuel self calls)
               = Some (map (fun _ => Returned A) calls)).
    { induction calls as [| args rest IH]; intros self Hs; [reflexivity |].
      cbn [collect_all map].
      assert (Hsel : selected_scenario self = Some A).
      { unfold selected_scenario. rewrite Hs. cbn [List.length].
        rewrite Z.mod_1_r. reflexivity. }
      rewrite (collect_scenario lib self args A fuel);
        [ | rewrite Hs; discriminate | exact Hsel | exact HA ].
      specialize (IH (advance_index (record_call self args)) Hs).
      destruct (collect_all lib fuel (advance_index (record_call self args))
                  rest) as [[self2 rs] |]; cbn in IH |- *; [| discriminate].
      injection IH as ->. reflexivity. }
    apply Hgen. reflexivity.
Qed.

(** C2 as stated fails: after one earlier call that was never asked for an
    item, the next call on [first; second] yields [first], the scenario at
    index 0, where the count of earlier calls gives index [1 mod 2] and so
    [second]. *)
Lemma unread_call_does_not_advance_cycle :
  option_map snd
    (_collect lib_no_match 3
       (pull_all lib_no_match
          (__init__ default_model
             (Some [text_scenario "first" 10 5; text_scenario "second" 10 5]))
          [(default_args msg_hi, 0%nat)])
       (default_args msg_hi))
  = Some (Returned (text_scenario "first" 10 5))
  /\ nth_error [text_scenario "first" 10 5; text_scenario "second" 10 5]
       (1 mod 2)%nat
     = Some (text_scenario "second" 10 5)
  /\ text_scenario "first" 10 5 <> text_scenario "second" 10 5.
Proof. repeat split. discriminate. Qed.

(** C2 at work: after three earlier calls, one asked for a single item, one
    never asked and one asked for five, the next call on [first; second;
    third] yields [third]; and the two recurring patterns on concrete
    scenarios. *)
Lemma scenario_cycling_witness :
  option_map snd
    (_collect lib_no_match 3
       (pull_all lib_no_match
          (__init__ default_model
             (Some [ text_scenario "first" 10 5; text_scenario "second" 10 5;
                     text_scenario "third" 10 5 ]))
          [ (default_args msg_hi, 1%nat); (default_args msg_none, 0%nat);
            (default_args msg_none, 5%nat) ])
       (default_args msg_hi))
  = Some (Returned (text_scenario "third" 10 5))
  /\ option_map snd
       (collect_all lib_no_match 3
          (__init__ default_model
             (Some [text_scenario "first" 10 5; error_scenario "lost" false]))
          [default_args msg_hi; default_args msg_none; default_args msg_hi;
           default_args msg_none])
     = Some [ Returned (text_scenario "first" 10 5);
              Returned (error_scenario "lost" false);
              Returned (text_scenario "first" 10 5);
              Returned (error_scenario "lost" false) ]
  /\ option_map snd
       (collect_all lib_no_match 3
          (__init__ default_model (Some [text_scenario "only" 10 5]))
          [default_args msg_hi; default_args msg_none; default_args msg_hi])
     = Some [ Returned (text_scenario "only" 10 5);
              Returned (text_scenario "only" 10 5);
              Returned (text_scenario "only" 10 5) ].
Proof.
  split; [| split].
  - apply (proj1 (scenario_cycling lib_no_match default_model)).
    + reflexivity.
    + cbn; lia.
  - apply (proj1 (proj2 (scenario_cycling lib_no_match default_model)));
      cbn; lia.
  - apply (proj2 (proj2 (scenario_cycling lib_no_match default_model))
             (text_scenario "only" 10 5)
             [default_args msg_hi; default_args msg_none;
              default_args msg_hi]).
    cbn; lia.
Defined.

(** ** The ledger and the caller's objects *)

Lemma recorded_app (a b : list CallerStep) :
  recorded (a ++ b)%list = (recorded a ++ recorded b)%list.
Proof.
  induction a as [| [args [| n] | r content] rest IH]; cbn [app recorded];
    [reflexivity | exact IH | rewrite IH; reflexivity | exact IH].
Qed.

Lemma run_caller_app (lib : PyLib) (a b : list CallerStep) :
  forall self heap,
    run_caller lib self heap (a ++ b)%list
    = run_caller lib (fst (run_caller lib self heap a))
        (snd (run_caller lib self heap a)) b.
Proof.
  induction a as [| [args n | r content] rest IH]; intros self heap;
    cbn [app run_caller]; [reflexivity | | apply IH].
  unfold stream.
  destruct (pull lib n self (Created args)) as [[self1 gen1] os]. apply IH.
Qed.

(** The ledger after the caller's steps. *)
Lemma run_caller_ledger (lib : PyLib) (steps : list CallerStep) :
  forall self heap,
    stream_calls (fst (run_caller lib self heap steps))
    = (stream_calls self ++ map call_record (recorded steps))%list.
Proof.
  induction steps as [| [args n | r content] rest IH]; intros self heap;
    cbn [run_caller recorded].
  - cbn. rewrite app_nil_r. reflexivity.
  - unfold stream. destruct n as [| n].
    + cbn [pull]. apply IH.
    + pose proof (pull_S_created lib n self args) as Hst.
      destruct (pull lib (S n) self (Created args)) as [[self1 gen1] os].
      cbn [fst] in Hst. subst self1. rewrite IH.
      destruct (stream_effect_fields self args) as [_ [_ [-> _]]].
      cbn [map]. rewrite <- app_assoc. reflexivity.
  - apply IH.
Qed.

(** An object that no step changes holds at the end what it held at the
    start. *)
Lemma run_caller_heap (lib : PyLib) (r : Ref) (steps : list CallerStep) :
  forall self heap,
    mutated r steps = false ->
    snd (run_caller lib self heap steps) r = heap r.
Proof.
  induction steps as [| [args n | r' content] rest IH]; intros self heap Hm;
    cbn [run_caller]; [reflexivity | |].
  - unfold stream.
    destruct (pull lib n self (Created args)) as [[self1 gen1] os].
    apply IH. exact Hm.
  - cbn [mutated existsb] in Hm. apply orb_false_iff in Hm.
    destruct Hm as [Hr Hrest].
    rewrite (IH self (heap_set heap r' content) Hrest).
    unfold heap_set. rewrite Nat.eqb_sym, Hr. reflexivity.
Qed.

(** C8, as the code has it.  The caller makes calls one after the other,
    asks each for any number of items, and may change its list objects in
    between.  The ledger then holds, in call order, one record for each call
    that was asked for at least one item and none for the others, so its
    length has grown by the number of calls asked for at least one item.
    The record of a call holds the system string of that call and, by
    reference, the very messages and tools objects of that call; read at the
    end, it shows the contents those objects have then, which are the
    contents they had when the call was made provided the caller has not
    changed them since.  After a last call that was asked for at least one
    item, the last record holds the system, the messages and the tools of
    that call. *)
Theorem ledger_fidelity (lib : PyLib) (self : MockLLMProvider) (heap : Heap)
    (steps : list CallerStep) :
  stream_calls (fst (run_caller lib self heap steps))
  = (stream_calls self
     ++ map (fun args =>
               mkStreamCall (messages args) (system args) (tools args))
          (recorded steps))%list
  /\ List.length (stream_calls (fst (run_caller lib self heap steps)))
     = (List.length (stream_calls self) + List.length (recorded steps))%nat
  /\ (forall before args n after,
         steps = (before ++ CallStream args (S n) :: after)%list ->
         nth_error (stream_calls (fst (run_caller lib self heap steps)))
           (List.length (stream_calls self)
            + List.length (recorded before))%nat
         = Some (mkStreamCall (messages args) (system args) (tools args))
         /\ (mutated (messages args) after = false ->
             match tools args with
             | Some t => mutated t after = false
             | None => True
             end ->
             read_call (snd (run_caller lib self heap steps))
               (mkStreamCall (messages args) (system args) (tools args))
             = read_call (snd (run_caller lib self heap before))
                 (mkStreamCall (messages args) (system args) (tools args))))
  /\ (forall before args n d,
         steps = (before ++ [CallStream args (S n)])%list ->
         call_messages
           (last (stream_calls (fst (run_caller lib self heap steps))) d)
         = messages args
         /\ call_system
              (last (stream_calls (fst (run_caller lib self heap steps))) d)
            = system args
         /\ call_tools
              (last (stream_calls (fst (run_caller lib self heap steps))) d)
            = tools args).
Proof.
  pose proof (run_caller_ledger lib steps self heap) as Hledger.
  fold call_record in Hledger |- *.
  split; [exact Hledger |]. split; [| split].
  - rewrite Hledger, length_app, length_map. reflexivity.
  - intros before args n after ->. split.
    + rewrite Hledger, recorded_app, map_app, app_assoc.
      cbn [recorded map].
      rewrite nth_error_app2
        by (rewrite length_app, length_map; apply Nat.le_refl).
      rewrite length_app, length_map, Nat.sub_diag. reflexivity.
    + intros Hmsg Htools.
      rewrite run_caller_app. cbn [run_caller]. unfold stream.
      destruct (pull lib (S n) (fst (run_caller lib self heap before))
                  (Created args)) as [[self1 gen1] os].
      unfold read_call, call_record. cbn [call_messages call_system call_tools].
      rewrite (run_caller_heap lib (messages args) after _ _ Hmsg).
      destruct (tools args) as [t |]; cbn [option_map]; [| reflexivity].
      rewrite (run_caller_heap lib t after _ _ Htools). reflexivity.
  - intros before args n d ->.
    rewrite Hledger, recorded_app, map_app, app_assoc. cbn [recorded map].
    rewrite last_last. repeat split.
Qed.

(** C8 as stated fails twice.  A call that is never asked for an item
    leaves no record, so after two calls the ledger may hold one.  And a
    record holds the caller's list by reference: when the caller passes the
    same list to two calls and changes it in between, the first record,
    read afterwards, shows the messages of the second call, not those the
    first call was given. *)
Lemma ledger_skips_unread_call_and_shows_later_content :
  List.length
    (stream_calls
       (fst (run_caller lib_no_match
               (__init__ default_model (Some [text_scenario "ok" 10 5]))
               sample_heap
               [ CallStream (default_args msg_hi) 0;
                 CallStream (default_args msg_none) 3 ])))
  = 1%nat
  /\ map
       (read_call
          (snd (run_caller lib_no_match
                  (__init__ default_model (Some [text_scenario "ok" 10 5]))
                  sample_heap
                  [ CallStream (mkArgs msg_hi "first" None 4096) 3;
                    Mutate msg_hi [PyStr "changed"];
                    CallStream (mkArgs msg_hi "second" None 4096) 3 ])))
       (stream_calls
          (fst (run_caller lib_no_match
                  (__init__ default_model (Some [text_scenario "ok" 10 5]))
                  sample_heap
                  [ CallStream (mkArgs msg_hi "first" None 4096) 3;
                    Mutate msg_hi [PyStr "changed"];
                    CallStream (mkArgs msg_hi "second" None 4096) 3 ])))
     = [ ([PyStr "changed"], "first", None);
         ([PyStr "changed"], "second", None) ]
  /\ sample_heap msg_hi
     = [PyDict [("role", PyStr "user"); ("content", PyStr "hi")]].
Proof. repeat split. Qed.

(** C8 at work: three calls and a change of an object that the second call
    alone was given; the record of the first call still shows what that
    call was given, and the last record is that of the last call. *)
Lemma ledger_fidelity_witness :
  nth_error
    (stream_calls
       (fst (run_caller lib_no_match
               (__init__ default_model (Some [text_scenario "ok" 10 5]))
               sample_heap
               [ CallStream (mkArgs msg_hi "Be helpful" None 64) 1;
                 CallStream (default_args msg_none) 0;
                 Mutate msg_none [PyStr "later"];
                 CallStream (mkArgs msg_none "X" (Some tool_search) 4096) 5 ])))
    0
  = Some (mkStreamCall msg_hi "Be helpful" None)
  /\ read_call
       (snd (run_caller lib_no_match
               (__init__ default_model (Some [text_scenario "ok" 10 5]))
               sample_heap
               [ CallStream (mkArgs msg_hi "Be helpful" None 64) 1;
                 CallStream (default_args msg_none) 0;
                 Mutate msg_none [PyStr "later"];
                 CallStream (mkArgs msg_none "X" (Some tool_search) 4096) 5 ]))
       (mkStreamCall msg_hi "Be helpful" None)
     = ([PyDict [("role", PyStr "user"); ("content", PyStr "hi")]],
        "Be helpful", None)
  /\ call_system
       (last
          (stream_calls
             (fst (run_caller lib_no_match
                     (__init__ default_model (Some [text_scenario "ok" 10 5]))
                     sample_heap
                     [ CallStream (mkArgs msg_hi "Be helpful" None 64) 1;
                       CallStream (default_args msg_none) 0;
                       Mutate msg_none [PyStr "later"];
                       CallStream
                         (mkArgs msg_none "X" (Some tool_search) 4096) 5 ])))
          (mkStreamCall msg_none EmptyString None))
     = "X".
Proof.
  destruct (ledger_fidelity lib_no_match
              (__init__ default_model (Some [text_scenario "ok" 10 5]))
              sample_heap
              [ CallStream (mkArgs msg_hi "Be helpful" None 64) 1;
                CallStream (default_args msg_none) 0;
                Mutate msg_none [PyStr "later"];
                CallStream (mkArgs msg_none "X" (Some tool_search) 4096) 5 ])
    as [_ [_ [Hrecord Hlast]]].
  destruct (Hrecord [] (mkArgs msg_hi "Be helpful" None 64) 0%nat
              [ CallStream (default_args msg_none) 0;
                Mutate msg_none [PyStr "later"];
                CallStream (mkArgs msg_none "X" (Some tool_search) 4096) 5 ]
              eq_refl) as [Hnth Hread].
  split; [exact Hnth |]. split.
  - exact (eq_trans (Hread eq_refl I) eq_refl).
  - exact (proj1 (proj2
       (Hlast [ CallStream (mkArgs msg_hi "Be helpful" None 64) 1;
                CallStream (default_args msg_none) 0;
                Mutate msg_none [PyStr "later"] ]
          (mkArgs msg_none "X" (Some tool_search) 4096) 4%nat
          (mkStreamCall msg_none EmptyString None) eq_refl))).
Defined.

(** ** The fallback sequence, for any list of words *)

Lemma append_empty_r (s : string) : s ++ EmptyString = s.
Proof. induction s as [| c s IH]; cbn; [| rewrite IH]; reflexivity. Qed.

Lemma append_assoc (s t u : string) : (s ++ t) ++ u = s ++ (t ++ u).
Proof. induction s as [| c s IH]; cbn; [| rewrite IH]; reflexivity. Qed.

Lemma concat_empty_cons (s : string) (l : list string) :
  String.concat EmptyString (s :: l) = s ++ String.concat EmptyString l.
Proof.
  destruct l as [| t l]; cbn [String.concat].
  - symmetry. apply append_empty_r.
  - reflexivity.
Qed.

Lemma text_deltas_app (l1 l2 : list StreamEvent) :
  text_deltas (l1 ++ l2)%list = (text_deltas l1 ++ text_deltas l2)%list.
Proof.
  induction l1 as [| e l1 IH]; [reflexivity |].
  destruct e; cbn [text_deltas app]; rewrite IH; reflexivity.
Qed.

Lemma word_deltas_length (words : list string) :
  forall i accumulated,
    List.length (word_deltas i words accumulated) = List.length words.
Proof.
  induction words as [| w rest IH]; intros i acc; cbn; [| rewrite IH];
    reflexivity.
Qed.

(** The loop emits text deltas only. *)
Lemma word_deltas_are_deltas (words : list string) :
  forall i accumulated,
    Forall (fun event => exists content snapshot,
                event = TextDeltaEvent content snapshot)
           (word_deltas i words accumulated).
Proof.
  induction words as [| w rest IH]; intros i acc; cbn [word_deltas];
    constructor; [eexists; eexists; reflexivity | apply IH].
Qed.

Lemma word_deltas_filter (f : StreamEvent -> bool) (words : list string) :
  (forall content snapshot, f (TextDeltaEvent content snapshot) = false) ->
  forall i accumulated, filter f (word_deltas i words accumulated) = [].
Proof.
  intros Hf. induction words as [| w rest IH]; intros i acc; [reflexivity |].
  cbn [word_deltas filter]. rewrite Hf. apply IH.
Qed.

(** The contents of the deltas follow the splitting rule. *)
Lemma word_deltas_contents (words : list string) (accumulated : string) :
  map fst (text_deltas (word_deltas 0 words accumulated))
  = spec_fragments words.
Proof.
  assert (Hlater : forall rest i acc,
             map fst (text_deltas (word_deltas (S i) rest acc))
             = map (fun word => " " ++ word) rest).
  { induction rest as [| w rest IH]; intros i acc; [reflexivity |].
    cbn [word_deltas text_deltas map fst Nat.eqb]. rewrite IH. reflexivity. }
  destruct words as [| w rest]; [reflexivity |].
  cbn [word_deltas text_deltas map fst Nat.eqb spec_fragments].
  rewrite Hlater. reflexivity.
Qed.

(** Each snapshot is the text before the loop followed by the contents so
    far. *)
Lemma word_deltas_snapshots (words : list string) :
  forall i accumulated k content snapshot,
    nth_error (text_deltas (word_deltas i words accumulated)) k
    = Some (content, snapshot) ->
    snapshot
    = accumulated
      ++ String.concat EmptyString
           (map fst
              (firstn (S k) (text_deltas (word_deltas i words accumulated)))).
Proof.
  induction words as [| w rest IH]; intros i acc k content snapshot Hnth.
  - destruct k; discriminate.
  - cbn [word_deltas text_deltas] in Hnth |- *.
    set (chunk := if Nat.eqb i 0 then w else " " ++ w) in *.
    destruct k as [| k].
    + cbn in Hnth. injection Hnth as _ <-. reflexivity.
    + cbn [nth_error] in Hnth.
      rewrite (IH _ _ _ _ _ Hnth).
      cbn [firstn map fst]. rewrite concat_empty_cons.
      rewrite append_assoc. reflexivity.
Qed.

(** The text accumulated at the end is the text before the loop followed by
    all the contents. *)
Lemma words_text_concat (words : list string) :
  forall i accumulated,
    words_text i words accumulated
    = accumulated
      ++ String.concat EmptyString
           (map fst (text_deltas (word_deltas i words accumulated))).
Proof.
  induction words as [| w rest IH]; intros i acc.
  - cbn. symmetry. apply append_empty_r.
  - cbn [words_text word_deltas text_deltas map fst].
    rewrite IH, concat_empty_cons, append_assoc. reflexivity.
Qed.

Lemma fallback_text_deltas (m : string) (words : list string) :
  text_deltas (fallback_events m words)
  = text_deltas (word_deltas 0 words EmptyString).
Proof.
  unfold fallback_events. rewrite text_deltas_app. cbn [text_deltas].
  apply app_nil_r.
Qed.

Lemma fallback_prefix_invariant (m : string) (words : list string) :
  prefix_invariant (fallback_events m words).
Proof.
  intros k content snapshot. rewrite fallback_text_deltas. intros Hnth.
  apply (word_deltas_snapshots words 0%nat EmptyString k content snapshot Hnth).
Qed.

Lemma fallback_terminal_invariant (m : string) (words : list string) :
  terminal_invariant (fallback_events m words) = true.
Proof.
  unfold terminal_invariant, fallback_events.
  rewrite filter_app, word_deltas_filter by reflexivity.
  rewrite rev_app_distr. reflexivity.
Qed.

Lemma fallback_reconciliation_invariant (m : string) (words : list string) :
  reconciliation_invariant (fallback_events m words).
Proof.
  unfold reconciliation_invariant, fallback_events. split.
  - intros k full_text Hnth.
    set (deltas := word_deltas 0 words EmptyString) in *.
    destruct (Nat.lt_ge_cases k (List.length deltas)) as [Hlt | Hge].
    + rewrite nth_error_app1 in Hnth by exact Hlt.
      pose proof (word_deltas_are_deltas words 0%nat EmptyString) as Hall.
      rewrite Forall_forall in Hall.
      destruct (Hall _ (nth_error_In _ _ Hnth)) as [c [sn Habs]].
      discriminate.
    + rewrite nth_error_app2 in Hnth by exact Hge.
      destruct (k - List.length deltas)%nat as [| [| j]] eqn:Hk;
        cbn in Hnth; [| discriminate | destruct j; discriminate].
      injection Hnth as <-.
      assert (k = List.length deltas) as -> by lia.
      rewrite firstn_app, Nat.sub_diag, firstn_all. cbn [firstn].
      rewrite app_nil_r. unfold delta_text, deltas.
      apply (words_text_concat words 0%nat EmptyString).
  - rewrite filter_app, word_deltas_filter by reflexivity. cbn. lia.
Qed.

Lemma word_deltas_grow (words : list string) :
  forall i accumulated k c1 s1 c2 s2,
    nth_error (text_deltas (word_deltas i words accumulated)) k
    = Some (c1, s1) ->
    nth_error (text_deltas (word_deltas i words accumulated)) (S k)
    = Some (c2, s2) ->
    s2 = s1 ++ c2.
Proof.
  induction words as [| w rest IH]; intros i acc k c1 s1 c2 s2 H1 H2.
  - destruct k; discriminate.
  - cbn [word_deltas text_deltas] in H1, H2.
    destruct k as [| k].
    + destruct rest as [| w2 rest]; [discriminate |].
      cbn in H1, H2. injection H1 as _ <-. injection H2 as <- <-.
      reflexivity.
    + cbn [nth_error] in H1, H2. exact (IH _ _ _ _ _ _ _ H1 H2).
Qed.

Lemma fallback_has_no_error (m : string) (words : list string)
    (error : string) (recoverable : bool) :
  ~ In (StreamErrorEvent error recoverable) (fallback_events m words).
Proof.
  unfold fallback_events. intros Hin. apply in_app_or in Hin.
  destruct Hin as [Hin | [Hin | [Hin | []]]]; try discriminate.
  pose proof (word_deltas_are_deltas words 0%nat EmptyString) as Hall.
  rewrite Forall_forall in Hall.
  destruct (Hall _ Hin) as [c [sn Habs]]. discriminate.
Qed.

Lemma pull_never_raises (lib : PyLib) (n : nat) :
  forall self gen exc, ~ In (Raise exc) (snd (pull lib n self gen)).
Proof.
  induction n as [| n IH]; intros self gen exc; [intros [] |].
  cbn [pull].
  pose proof (anext_never_raises lib self gen exc) as Hstep.
  destruct (__anext__ lib self gen) as [[self1 gen1] o].
  specialize (IH self1 gen1 exc).
  destruct (pull lib n self1 gen1) as [[self2 gen2] os].
  cbn [snd] in *. intros [Heq | Hin]; [apply Hstep; exact Heq | exact (IH Hin)].
Qed.

(** ** The shape of the emitted sequences *)

(** C3, as the code has it.  Every call can be consumed to its end.  On an
    empty store the emitted sequence has exactly one terminal event, a
    [FinishEvent], as its last element.  On a non-empty store the emitted
    sequence is the selected scenario itself, so it satisfies the terminal
    invariant exactly when that scenario does; the scenarios built by
    [text_scenario], [tool_call_scenario] and [error_scenario] all do. *)
Theorem terminal_invariant_of_stream (lib : PyLib) (self : MockLLMProvider)
    (args : StreamArgs) :
  (exists self' events,
      (forall fuel,
          (fuel_bound self < fuel)%nat ->
          _collect lib fuel self args = Some (self', Returned events))
      /\ match scenarios self with
         | [] =>
             terminal_invariant events = true
             /\ exists body,
                 events
                 = (body
                    ++ [FinishEvent "mock_complete" (model self) None None]
                   )%list
                 /\ filter is_terminal body = []
         | _ :: _ =>
             exists scenario,
               selected_scenario self = Some scenario
               /\ events = scenario
               /\ terminal_invariant events = terminal_invariant scenario
         end)
  /\ (forall text input_tokens output_tokens,
         terminal_invariant (text_scenario text input_tokens output_tokens)
         = true)
  /\ (forall tool_name tool_input tool_use_id text,
         terminal_invariant
           (tool_call_scenario tool_name tool_input tool_use_id text)
         = true)
  /\ (forall error recoverable,
         terminal_invariant (error_scenario error recoverable) = true).
Proof.
  split; [| split; [| split]].
  - exists (stream_effect self args), (stream_events lib self args).
    split; [intros fuel Hfuel; apply collect_total; exact Hfuel |].
    unfold stream_events.
    destruct (scenarios self) as [| sc scs] eqn:Hs.
    + split; [apply fallback_terminal_invariant |].
      unfold fallback_events.
      eexists (_ ++ [TextEndEvent _])%list.
      split; [rewrite <- app_assoc; reflexivity |].
      rewrite filter_app, word_deltas_filter by reflexivity. reflexivity.
    + assert (Hne : scenarios self <> []) by congruence.
      destruct (selected_scenario_some self Hne) as [events [Hsel _]].
      rewrite Hsel. exists events. repeat split.
  - reflexivity.
  - intros tool_name tool_input tool_use_id text. destruct text; reflexivity.
  - reflexivity.
Qed.

(** C3 as stated fails: a scenario is replayed as it is, so a store whose
    scenario holds a single text delta yields a sequence with no terminal
    event, and one whose scenario holds two finish events yields both. *)
Lemma scenario_without_terminal_event :
  (option_map snd
     (_collect lib_no_match 5
        (__init__ default_model (Some [[TextDeltaEvent "hi" "hi"]]))
        (default_args msg_hi))
   = Some (Returned [TextDeltaEvent "hi" "hi"])
   /\ terminal_invariant [TextDeltaEvent "hi" "hi"] = false)
  /\ (option_map snd
        (_collect lib_no_match 5
           (__init__ default_model
              (Some [[FinishEvent "stop" "mock" None None;
                      FinishEvent "stop" "mock" None None]]))
           (default_args msg_hi))
      = Some (Returned [FinishEvent "stop" "mock" None None;
                        FinishEvent "stop" "mock" None None])
      /\ terminal_invariant [FinishEvent "stop" "mock" None None;
                             FinishEvent "stop" "mock" None None] = false).
Proof. repeat split. Qed.

(** C3 at work on the test suite's providers. *)
Lemma terminal_invariant_of_stream_witness :
  (exists events,
      option_map snd
        (_collect lib_no_match 11 (__init__ "gpt-test" None)
           (default_args msg_hi))
      = Some (Returned events)
      /\ terminal_invariant events = true)
  /\ (exists events,
         option_map snd
           (_collect lib_no_match 11
              (__init__ default_model (Some [error_scenario "lost" true]))
              (default_args msg_hi))
         = Some (Returned events)
         /\ terminal_invariant events = true).
Proof.
  split.
  - destruct (proj1 (terminal_invariant_of_stream lib_no_match
                       (__init__ "gpt-test" None) (default_args msg_hi)))
      as [self' [events [Hrun Hinv]]].
    exists events. split; [| exact (proj1 Hinv)].
    rewrite (Hrun 11%nat); [reflexivity | vm_compute; lia].
  - destruct (proj1 (terminal_invariant_of_stream lib_no_match
                       (__init__ default_model
                          (Some [error_scenario "lost" true]))
                       (default_args msg_hi)))
      as [self' [events [Hrun [scenario [Hsel [Heq Hinv]]]]]].
    exists events. split.
    + rewrite (Hrun 11%nat); [reflexivity | vm_compute; lia].
    + rewrite Hinv. vm_compute in Hsel. injection Hsel as <-. reflexivity.
Defined.

(** C4.  On a provider without scenarios the call asks
    [_generate_mock_response] for the text with [json_mode=False], gets the
    fixed sentence, and yields: one text delta per word of the sentence split
    at spaces, the first carrying the first word and each later one a space
    and the next word; then one [TextEndEvent]; then one [FinishEvent] with
    stop reason [mock_complete].  There is at least one delta. *)
Theorem fallback_sequence (lib : PyLib) (self : MockLLMProvider)
    (args : StreamArgs) (fuel : nat) :
  scenarios self = [] ->
  (10 < fuel)%nat ->
  exists words deltas,
    _generate_mock_response lib (system args) false
    = "This is a mock response for testing purposes."
    /\ words
       = str_split " " (_generate_mock_response lib (system args) false)
    /\ option_map snd (_collect lib fuel self args)
       = Some (Returned
                 (deltas
                  ++ [ TextEndEvent
                         (_generate_mock_response lib (system args) false);
                       FinishEvent "mock_complete" (model self) None None
                     ])%list)
    /\ Forall (fun event => exists content snapshot,
                   event = TextDeltaEvent content snapshot) deltas
    /\ map fst (text_deltas deltas) = spec_fragments words
    /\ List.length deltas = List.length words
    /\ (1 <= List.length deltas)%nat.
Proof.
  intros He Hfuel.
  exists (str_split " " (_generate_mock_response lib (system args) false)).
  exists (word_deltas 0
            (str_split " " (_generate_mock_response lib (system args) false))
            EmptyString).
  split; [reflexivity |]. split; [reflexivity |].
  split; [| split; [| split; [| split]]].
  - rewrite (collect_fallback lib self args fuel He).
    + reflexivity.
    + rewrite fallback_words. cbn [List.length]. lia.
  - apply word_deltas_are_deltas.
  - apply word_deltas_contents.
  - apply word_deltas_length.
  - rewrite word_deltas_length, fallback_words. cbn [List.length]. lia.
Qed.

Lemma fallback_sequence_witness :
  exists words deltas,
    words = ["This"; "is"; "a"; "mock"; "response"; "for"; "testing";
             "purposes."]
    /\ option_map snd
         (_collect lib_no_match 11 (__init__ "gpt-test" None)
            (mkArgs msg_hi "Generate JSON with keys: name, age"
               (Some tool_search) 16))
       = Some (Returned
                 (deltas
                  ++ [ TextEndEvent
                         "This is a mock response for testing purposes.";
                       FinishEvent "mock_complete" "gpt-test" None None
                     ])%list)
    /\ map fst (text_deltas deltas)
       = ["This"; " is"; " a"; " mock"; " response"; " for"; " testing";
          " purposes."].
Proof.
  destruct (fallback_sequence lib_no_match (__init__ "gpt-test" None)
              (mkArgs msg_hi "Generate JSON with keys: name, age"
                 (Some tool_search) 16)
              11%nat eq_refl ltac:(lia))
    as [words [deltas [_ [Hw [Hrun [_ [Hc _]]]]]]].
  exists words, deltas. subst words.
  split; [reflexivity |]. split; [exact Hrun | exact Hc].
Defined.

(** C5.  In the sequence of a call on a provider without scenarios, the
    snapshot of each text delta is the concatenation of the contents of the
    deltas up to and including it; each snapshot is the one before it
    followed by the delta's own content. *)
Theorem fallback_snapshots (lib : PyLib) (self : MockLLMProvider)
    (args : StreamArgs) (fuel : nat) :
  scenarios self = [] ->
  (10 < fuel)%nat ->
  exists events,
    option_map snd (_collect lib fuel self args) = Some (Returned events)
    /\ prefix_invariant events
    /\ (forall i c1 s1 c2 s2,
           nth_error (text_deltas events) i = Some (c1, s1) ->
           nth_error (text_deltas events) (S i) = Some (c2, s2) ->
           s2 = s1 ++ c2)
    /\ List.length (text_deltas events) = 8%nat.
Proof.
  intros He Hfuel.
  exists (fallback_events (model self)
            (str_split " " (_generate_mock_response lib (system args) false))).
  split; [| split; [| split]].
  - rewrite (collect_fallback lib self args fuel He).
    + reflexivity.
    + rewrite fallback_words. cbn [List.length]. lia.
  - apply fallback_prefix_invariant.
  - intros i c1 s1 c2 s2. rewrite fallback_text_deltas.
    apply word_deltas_grow.
  - reflexivity.
Qed.

Lemma fallback_snapshots_witness :
  exists events,
    option_map snd
      (_collect lib_no_match 11 (__init__ default_model None)
         (default_args msg_hi))
    = Some (Returned events)
    /\ nth_error (text_deltas events) 2 = Some (" a", "This is a")
    /\ "This is a"
       = String.concat EmptyString
           (map fst (firstn 3 (text_deltas events))).
Proof.
  destruct (fallback_snapshots lib_no_match (__init__ default_model None)
              (default_args msg_hi) 11%nat eq_refl ltac:(lia))
    as [events [Hrun [Hprefix _]]].
  exists events.
  assert (Hnth : nth_error (text_deltas events) 2 = Some (" a", "This is a")).
  { vm_compute in Hrun. injection Hrun as <-. reflexivity. }
  split; [exact Hrun |]. split; [exact Hnth |].
  exact (Hprefix 2%nat " a" "This is a" Hnth).
Defined.

(** C6, as the code has it.  Every call can be consumed to its end.  On an
    empty store the emitted sequence holds one [TextEndEvent], whose
    [full_text] is the concatenation of the contents of the deltas before it.
    On a non-empty store the emitted sequence is the selected scenario
    itself, so the reconciliation invariant holds of it exactly when it holds
    of that scenario; the scenarios built by [text_scenario],
    [tool_call_scenario] and [error_scenario] hold no [TextEndEvent] and
    satisfy it. *)
Theorem reconciliation_invariant_of_stream (lib : PyLib)
    (self : MockLLMProvider) (args : StreamArgs) :
  (exists self' events,
      (forall fuel,
          (fuel_bound self < fuel)%nat ->
          _collect lib fuel self args = Some (self', Returned events))
      /\ match scenarios self with
         | [] =>
             reconciliation_invariant events
             /\ List.length (filter is_text_end events) = 1%nat
         | _ :: _ =>
             exists scenario,
               selected_scenario self = Some scenario
               /\ events = scenario
               /\ (reconciliation_invariant events
                   <-> reconciliation_invariant scenario)
         end)
  /\ (forall text input_tokens output_tokens,
         filter is_text_end (text_scenario text input_tokens output_tokens)
         = []
         /\ reconciliation_invariant
              (text_scenario text input_tokens output_tokens))
  /\ (forall tool_name tool_input tool_use_id text,
         filter is_text_end
           (tool_call_scenario tool_name tool_input tool_use_id text)
         = []
         /\ reconciliation_invariant
              (tool_call_scenario tool_name tool_input tool_use_id text))
  /\ (forall error recoverable,
         filter is_text_end (error_scenario error recoverable) = []
         /\ reconciliation_invariant (error_scenario error recoverable)).
Proof.
  assert (Hnone : forall events,
             filter is_text_end events = [] ->
             reconciliation_invariant events).
  { intros events Hf. split.
    - intros i full_text Hnth. apply nth_error_In in Hnth.
      assert (Hin : In (TextEndEvent full_text) (filter is_text_end events))
        by (apply filter_In; split; [exact Hnth | reflexivity]).
      rewrite Hf in Hin. destruct Hin.
    - rewrite Hf. cbn. lia. }
  split; [| split; [| split]].
  - exists (stream_effect self args), (stream_events lib self args).
    split; [intros fuel Hfuel; apply collect_total; exact Hfuel |].
    unfold stream_events.
    destruct (scenarios self) as [| sc scs] eqn:Hs.
    + split; [apply fallback_reconciliation_invariant |].
      unfold fallback_events.
      rewrite filter_app, word_deltas_filter by reflexivity. reflexivity.
    + assert (Hne : scenarios self <> []) by congruence.
      destruct (selected_scenario_some self Hne) as [events [Hsel _]].
      rewrite Hsel. exists events.
      split; [reflexivity |]. split; [reflexivity |]. split; auto.
  - intros. split; [reflexivity | apply Hnone; reflexivity].
  - intros tool_name tool_input tool_use_id text.
    assert (Hf : filter is_text_end
                   (tool_call_scenario tool_name tool_input tool_use_id text)
                 = []) by (destruct text; reflexivity).
    split; [exact Hf | apply Hnone; exact Hf].
  - intros. split; [reflexivity | apply Hnone; reflexivity].
Qed.

(** C6 as stated fails: a scenario is replayed as it is, so a scenario whose
    [TextEndEvent] disagrees with its deltas, or which holds two of them,
    reaches the consumer unchanged. *)
Lemma scenario_with_unreconciled_text_end :
  (option_map snd
     (_collect lib_no_match 5
        (__init__ default_model
           (Some [[ TextDeltaEvent "a" "a"; TextEndEvent "b";
                    FinishEvent "stop" "mock" None None ]]))
        (default_args msg_hi))
   = Some (Returned [ TextDeltaEvent "a" "a"; TextEndEvent "b";
                      FinishEvent "stop" "mock" None None ])
   /\ nth_error [ TextDeltaEvent "a" "a"; TextEndEvent "b";
                  FinishEvent "stop" "mock" None None ] 1
      = Some (TextEndEvent "b")
   /\ delta_text (firstn 1 [ TextDeltaEvent "a" "a"; TextEndEvent "b";
                             FinishEvent "stop" "mock" None None ])
      = "a")
  /\ ~ reconciliation_invariant
         [ TextDeltaEvent "a" "a"; TextEndEvent "b";
           FinishEvent "stop" "mock" None None ]
  /\ (option_map snd
        (_collect lib_no_match 5
           (__init__ default_model
              (Some [[ TextEndEvent EmptyString; TextEndEvent EmptyString;
                       FinishEvent "stop" "mock" None None ]]))
           (default_args msg_hi))
      = Some (Returned [ TextEndEvent EmptyString; TextEndEvent EmptyString;
                         FinishEvent "stop" "mock" None None ])
      /\ List.length
           (filter is_text_end
              [ TextEndEvent EmptyString; TextEndEvent EmptyString;
                FinishEvent "stop" "mock" None None ])
         = 2%nat).
Proof.
  split; [repeat split |]. split; [| repeat split].
  intros [Hfull _].
  specialize (Hfull 1%nat "b" eq_refl). discriminate Hfull.
Qed.

Lemma reconciliation_invariant_of_stream_witness :
  exists events,
    option_map snd
      (_collect lib_no_match 11 (__init__ default_model None)
         (default_args msg_hi))
    = Some (Returned events)
    /\ nth_error events 8
       = Some (TextEndEvent "This is a mock response for testing purposes.")
    /\ "This is a mock response for testing purposes."
       = delta_text (firstn 8 events).
Proof.
  destruct (proj1 (reconciliation_invariant_of_stream lib_no_match
                     (__init__ default_model None) (default_args msg_hi)))
    as [self' [events [Hrun [[Hfull _] _]]]].
  exists events.
  specialize (Hrun 11%nat ltac:(vm_compute; lia)).
  assert (Hnth : nth_error events 8
                 = Some (TextEndEvent
                           "This is a mock response for testing purposes.")).
  { vm_compute in Hrun. injection Hrun as _ <-. reflexivity. }
  split; [rewrite Hrun; reflexivity |]. split; [exact Hnth |].
  exact (Hfull 8%nat _ Hnth).
Defined.

(** ** Errors *)

(** C7.  Whatever the arguments and the provider, no request for an item
    raises and the call can be consumed to its end.  On an empty store the
    consumer gets the fallback sequence, which holds no [StreamErrorEvent].
    A [StreamErrorEvent] reaches the consumer only from a non-empty store,
    as the item at the same position of the selected scenario. *)
Theorem stream_never_raises (lib : PyLib) (self : MockLLMProvider)
    (args : StreamArgs) :
  (forall n exc,
      ~ In (Raise exc) (snd (pull lib n self (snd (stream self args)))))
  /\ exists self' events,
      (forall fuel,
          (fuel_bound self < fuel)%nat ->
          _collect lib fuel self args = Some (self', Returned events))
      /\ (scenarios self = [] ->
          (exists deltas full_text,
              events
              = (deltas
                 ++ [ TextEndEvent full_text;
                      FinishEvent "mock_complete" (model self) None None
                    ])%list
              /\ Forall (fun event => exists content snapshot,
                             event = TextDeltaEvent content snapshot) deltas)
          /\ filter is_stream_error events = [])
      /\ (forall i error recoverable,
             nth_error events i = Some (StreamErrorEvent error recoverable) ->
             scenarios self <> []
             /\ exists scenario,
                 selected_scenario self = Some scenario
                 /\ nth_error scenario i
                    = Some (StreamErrorEvent error recoverable)).
Proof.
  split; [intros n exc; apply pull_never_raises |].
  exists (stream_effect self args), (stream_events lib self args).
  split; [intros fuel Hfuel; apply collect_total; exact Hfuel |].
  unfold stream_events.
  destruct (scenarios self) as [| sc scs] eqn:Hs.
  - split.
    + intros _. split.
      * eexists. eexists. split; [reflexivity |]. apply word_deltas_are_deltas.
      * unfold fallback_events.
        rewrite filter_app, word_deltas_filter by reflexivity. reflexivity.
    + intros i error recoverable Hnth. exfalso.
      apply nth_error_In in Hnth.
      exact (fallback_has_no_error _ _ _ _ Hnth).
  - assert (Hne : scenarios self <> []) by congruence.
    destruct (selected_scenario_some self Hne) as [events [Hsel _]].
    rewrite Hsel. split; [intros Habs; discriminate |].
    intros i error recoverable Hnth.
    split; [discriminate |]. exists events. split; [reflexivity | exact Hnth].
Qed.

Lemma stream_never_raises_witness :
  snd (pull lib_no_match 4
         (__init__ default_model (Some [error_scenario "Rate limit" true]))
         (snd (stream
                 (__init__ default_model
                    (Some [error_scenario "Rate limit" true]))
                 (default_args msg_hi))))
  = [ Yield (StreamErrorEvent "Rate limit" true); StopAsyncIteration;
      StopAsyncIteration; StopAsyncIteration ]
  /\ (forall exc,
         ~ In (Raise exc)
             (snd (pull lib_no_match 4
                     (__init__ default_model
                        (Some [error_scenario "Rate limit" true]))
                     (snd (stream
                             (__init__ default_model
                                (Some [error_scenario "Rate limit" true]))
                             (default_args msg_hi))))))
  /\ exists events,
      option_map snd
        (_collect lib_no_match 11 (__init__ default_model None)
           (default_args msg_hi))
      = Some (Returned events)
      /\ filter is_stream_error events = [].
Proof.
  split; [reflexivity |]. split.
  - intros exc.
    exact (proj1 (stream_never_raises lib_no_match
                    (__init__ default_model
                       (Some [error_scenario "Rate limit" true]))
                    (default_args msg_hi)) 4%nat exc).
  - destruct (proj2 (stream_never_raises lib_no_match
                       (__init__ default_model None) (default_args msg_hi)))
      as [self' [events [Hrun [Hfallback _]]]].
    exists events. split.
    + rewrite (Hrun 11%nat); [reflexivity | vm_compute; lia].
    + exact (proj2 (Hfallback eq_refl)).
Defined.

(** ** Independence from the arguments *)

(** C10.  On a provider without scenarios the events of a call do not depend
    on its arguments: the text asked of [_generate_mock_response] with
    [json_mode=False] is the same for every system prompt, and two calls with
    any messages, system, tools and max_tokens, from the same state or one
    after the other, yield the same sequence. *)
Theorem fallback_ignores_arguments (lib : PyLib) (self : MockLLMProvider)
    (args1 args2 : StreamArgs) (fuel : nat) :
  scenarios self = [] ->
  (10 < fuel)%nat ->
  _generate_mock_response lib (system args1) false
  = _generate_mock_response lib (system args2) false
  /\ exists events,
      option_map snd (_collect lib fuel self args1) = Some (Returned events)
      /\ option_map snd (_collect lib fuel self args2) = Some (Returned events)
      /\ option_map snd (collect_all lib fuel self [args1; args2])
         = Some [Returned events; Returned events].
Proof.
  intros He Hfuel. split; [reflexivity |].
  assert (Hb : forall s : MockLLMProvider,
             scenarios s = [] -> (fuel_bound s < fuel)%nat).
  { intros s Hs. unfold fuel_bound. rewrite Hs. cbn. lia. }
  exists (stream_events lib self args1).
  assert (Hsame : forall s a,
             scenarios s = [] -> model s = model self ->
             stream_events lib s a = stream_events lib self args1).
  { intros s a Hs Hm. unfold stream_events. rewrite Hs, He, Hm. reflexivity. }
  split; [| split].
  - rewrite collect_total by (apply Hb; exact He). reflexivity.
  - rewrite collect_total by (apply Hb; exact He).
    cbn [option_map snd]. rewrite (Hsame self args2 He eq_refl). reflexivity.
  - rewrite collect_all_total by (apply Hb; exact He).
    cbn [option_map snd all_events].
    destruct (stream_effect_fields self args1) as [Hm [Hs _]].
    rewrite (Hsame (stream_effect self args1) args2);
      [reflexivity | | exact Hm].
    rewrite Hs. exact He.
Qed.

Lemma fallback_ignores_arguments_witness :
  exists events,
    option_map snd
      (_collect lib_no_match 11 (__init__ default_model None)
         (default_args msg_hi))
    = Some (Returned events)
    /\ option_map snd
         (_collect lib_no_match 11 (__init__ default_model None)
            (mkArgs msg_none "output_keys: [name, age]" (Some tool_search) 1))
       = Some (Returned events).
Proof.
  destruct (fallback_ignores_arguments lib_no_match
              (__init__ default_model None) (default_args msg_hi)
              (mkArgs msg_none "output_keys: [name, age]" (Some tool_search) 1)
              11%nat eq_refl ltac:(lia))
    as [_ [events [H1 [H2 _]]]].
  exists events. split; [exact H1 | exact H2].
Defined.

(** * Further properties of the engine *)

(** ** One request at a time *)

Lemma outcome_at_tl (events : list StreamEvent) (k : nat) :
  outcome_at events (S k) = outcome_at (tl events) k.
Proof. destruct events; [destruct k |]; reflexivity. Qed.

Lemma outcome_at_seq (events : list StreamEvent) (n : nat) :
  map (outcome_at events) (seq 1 n) = map (outcome_at (tl events)) (seq 0 n).
Proof.
  rewrite <- seq_shift, map_map. apply map_ext. intros k.
  apply outcome_at_tl.
Qed.

Lemma yielded_outcome_at (events : list StreamEvent) :
  (yielded (outcome_at events 0) ++ tl events)%list = events.
Proof. destruct events; reflexivity. Qed.

Section Requests.

Variable lib : PyLib.

(** A started generator hands over the head of what it has left and keeps
    the tail; the provider is not written. *)
Lemma anext_started_step (self : MockLLMProvider) (gen : StreamGen) :
  started gen ->
  fst (fst (__anext__ lib self gen)) = self
  /\ started (snd (fst (__anext__ lib self gen)))
  /\ snd (__anext__ lib self gen)
     = outcome_at (remaining_events (model self) gen) 0
  /\ remaining_events (model self) (snd (fst (__anext__ lib self gen)))
     = tl (remaining_events (model self) gen).
Proof.
  destruct gen as [args | rem | i rem acc | | |]; cbn [started];
    intros H; try contradiction;
    try destruct rem; cbn; repeat split.
Qed.

(** The first resumption hands over the head of the call's sequence. *)
Lemma anext_created_step (self : MockLLMProvider) (args : StreamArgs) :
  fst (fst (__anext__ lib self (Created args))) = stream_effect self args
  /\ started (snd (fst (__anext__ lib self (Created args))))
  /\ snd (__anext__ lib self (Created args))
     = outcome_at (stream_events lib self args) 0
  /\ remaining_events (model self)
       (snd (fst (__anext__ lib self (Created args))))
     = tl (stream_events lib self args).
Proof.
  split; [apply anext_created_state |].
  split; [apply anext_starts |].
  unfold stream_events.
  destruct (scenarios self) as [| sc scs] eqn:Hs.
  - rewrite (anext_created_empty lib self args Hs).
    generalize (str_split " "
                  (_generate_mock_response lib (system args) false)).
    intros words. destruct words; cbn; split; reflexivity.
  - assert (Hne : scenarios self <> []) by congruence.
    destruct (selected_scenario_some self Hne) as [events [Hsel _]].
    rewrite (anext_created_scenario lib self args events Hne Hsel), Hsel.
    destruct events; cbn; split; reflexivity.
Qed.

Lemma pull_started_outcomes (n : nat) :
  forall self gen,
    started gen ->
    snd (pull lib n self gen)
    = map (outcome_at (remaining_events (model self) gen)) (seq 0 n).
Proof.
  induction n as [| n IH]; intros self gen Hst; [reflexivity |].
  cbn [pull seq map].
  destruct (anext_started_step self gen Hst) as [Hself [Hst' [Ho Hrem]]].
  destruct (__anext__ lib self gen) as [[self1 gen1] o].
  cbn [fst snd] in *. subst self1.
  specialize (IH self gen1 Hst').
  destruct (pull lib n self gen1) as [[self2 gen2] os].
  cbn [snd] in *. rewrite IH, Hrem, Ho, outcome_at_seq. reflexivity.
Qed.

Lemma async_for_started (gen : StreamGen) :
  started gen ->
  forall fuel self events,
    (List.length (remaining_events (model self) gen) < fuel)%nat ->
    async_for lib fuel self gen events
    = Some (self,
            Returned (events ++ remaining_events (model self) gen)%list).
Proof.
  destruct gen as [args | rem | i rem acc | | |]; cbn [started];
    intros H fuel self events Hfuel; try contradiction;
    cbn [remaining_events] in *.
  - apply async_for_scenario. exact Hfuel.
  - apply async_for_words.
    rewrite length_app, word_deltas_length in Hfuel. cbn in Hfuel. lia.
  - destruct fuel as [| [| fuel]]; cbn in Hfuel; try lia. reflexivity.
  - destruct fuel as [| fuel]; cbn in Hfuel; try lia.
    cbn. rewrite app_nil_r. reflexivity.
  - destruct fuel as [| fuel]; cbn in Hfuel; try lia.
    cbn. rewrite app_nil_r. reflexivity.
Qed.

Lemma stream_events_length (self : MockLLMProvider) (args : StreamArgs) :
  (List.length (stream_events lib self args) <= fuel_bound self)%nat.
Proof.
  unfold stream_events.
  destruct (scenarios self) as [| sc scs] eqn:Hs.
  - unfold fuel_bound. rewrite Hs. cbn. lia.
  - destruct (selected_scenario self) as [events |] eqn:Hsel.
    + apply selected_scenario_length. exact Hsel.
    + cbn. lia.
Qed.

Lemma pull_created_state (n : nat) (self : MockLLMProvider)
    (args : StreamArgs) :
  fst (fst (pull lib n self (Created args)))
  = if Nat.eqb n 0 then self else stream_effect self args.
Proof.
  destruct n as [| n]; [reflexivity | apply pull_S_created].
Qed.

End Requests.

(** X1.  A consumer that asks a call for [n] items gets, at its [k]-th
    request, the [k]-th event of the sequence the call would yield if
    consumed to its end, and [StopAsyncIteration] at every request past the
    end: stopping early yields a prefix, and an exhausted generator never
    yields again. *)
Theorem pull_yields_prefix (lib : PyLib) (self : MockLLMProvider)
    (args : StreamArgs) (n : nat) :
  snd (pull lib n self (snd (stream self args)))
  = map (outcome_at (stream_events lib self args)) (seq 0 n)
  /\ (forall fuel,
         (fuel_bound self < fuel)%nat ->
         option_map snd (_collect lib fuel self args)
         = Some (Returned (stream_events lib self args))).
Proof.
  split.
  - unfold stream. cbn [snd].
    destruct n as [| n]; [reflexivity |].
    cbn [pull seq map].
    destruct (anext_created_step lib self args) as [Hself [Hst [Ho Hrem]]].
    destruct (__anext__ lib self (Created args)) as [[self1 gen1] o].
    cbn [fst snd] in *. subst self1.
    pose proof (pull_started_outcomes lib n (stream_effect self args) gen1 Hst)
      as Hrest.
    destruct (pull lib n (stream_effect self args) gen1) as [[self2 gen2] os].
    cbn [snd] in *.
    destruct (stream_effect_fields self args) as [Hm _].
    rewrite Hrest, Hm, Hrem, Ho, outcome_at_seq. reflexivity.
  - intros fuel Hfuel. rewrite collect_total by exact Hfuel. reflexivity.
Qed.

(** X2.  After any sequence of calls, each asked for any number of items
    (none included), the ledger holds the records of exactly the calls that
    were asked for at least one item, in call order; the index has advanced
    by the number of those calls when the store is non-empty and not at all
    when it is empty; the model and the scenarios are unchanged. *)
Theorem pull_all_effects (lib : PyLib) (calls : list (StreamArgs * nat))
    (self : MockLLMProvider) :
  model (pull_all lib self calls) = model self
  /\ scenarios (pull_all lib self calls) = scenarios self
  /\ stream_calls (pull_all lib self calls)
     = (stream_calls self
        ++ map (fun call => call_record (fst call)) (filter pulled calls))%list
  /\ _call_index (pull_all lib self calls)
     = match scenarios self with
       | [] => _call_index self
       | _ :: _ =>
           _call_index self + Z.of_nat (List.length (filter pulled calls))
       end.
Proof. apply pull_all_state. Qed.

Lemma pull_yields_prefix_witness :
  snd (pull lib_no_match 4
         (__init__ default_model
            (Some [tool_call_scenario "search" PyNone "call_1" "Let me check"]))
         (snd (stream
                 (__init__ default_model
                    (Some [tool_call_scenario "search" PyNone "call_1"
                             "Let me check"]))
                 (default_args msg_hi))))
  = [ Yield (TextDeltaEvent "Let me check" "Let me check");
      Yield (ToolCallEvent "call_1" "search" PyNone);
      Yield (FinishEvent "tool_calls" "mock" (Some 10) (Some 5));
      StopAsyncIteration ]
  /\ snd (pull lib_no_match 2 (__init__ default_model None)
            (snd (stream (__init__ default_model None)
                    (default_args msg_hi))))
     = [ Yield (TextDeltaEvent "This" "This");
         Yield (TextDeltaEvent " is" "This is") ].
Proof.
  split.
  - exact (proj1 (pull_yields_prefix lib_no_match
                    (__init__ default_model
                       (Some [tool_call_scenario "search" PyNone "call_1"
                                "Let me check"]))
                    (default_args msg_hi) 4)).
  - exact (proj1 (pull_yields_prefix lib_no_match
                    (__init__ default_model None) (default_args msg_hi) 2)).
Defined.

(** ** Overlapping calls *)

(** X3.  Two calls may overlap: once a call has been asked for its first
    item, a second call made and consumed to its end on the same provider
    does not disturb it.  The second call is served as the call after the
    first, and the first, consumed afterwards, still yields the whole
    sequence it was given at its first request; the ledger holds the two
    records in the order of the first requests. *)
Theorem overlapping_calls (lib : PyLib) (self : MockLLMProvider)
    (args1 args2 : StreamArgs) (fuel : nat) :
  (fuel_bound self < fuel)%nat ->
  let first := __anext__ lib self (snd (stream self args1)) in
  exists self2,
    _collect lib fuel (fst (fst first)) args2
    = Some (self2,
            Returned (stream_events lib (stream_effect self args1) args2))
    /\ async_for lib fuel self2 (snd (fst first)) (yielded (snd first))
       = Some (self2, Returned (stream_events lib self args1))
    /\ stream_calls self2
       = (stream_calls self ++ [call_record args1; call_record args2])%list.
Proof.
  intros Hfuel first. unfold stream in first. cbn [snd] in first.
  destruct (anext_created_step lib self args1) as [Hself [Hst [Ho Hrem]]].
  fold first in Hself, Hst, Ho, Hrem.
  destruct (stream_effect_fields self args1) as [Hm1 [Hs1 [Hc1 _]]].
  destruct (stream_effect_fields (stream_effect self args1) args2)
    as [Hm2 [_ [Hc2 _]]].
  exists (stream_effect (stream_effect self args1) args2).
  split; [| split].
  - rewrite Hself. apply collect_total.
    rewrite fuel_bound_stream_effect. exact Hfuel.
  - rewrite async_for_started; [| exact Hst |].
    + rewrite Hm2, Hm1, Hrem, Ho, yielded_outcome_at. reflexivity.
    + rewrite Hm2, Hm1, Hrem.
      pose proof (stream_events_length lib self args1) as Hlen.
      destruct (stream_events lib self args1); cbn in *; lia.
  - rewrite Hc2, Hc1, <- app_assoc. reflexivity.
Qed.

Lemma overlapping_calls_witness :
  exists self2,
    _collect lib_no_match 11
      (fst (fst (__anext__ lib_no_match
                   (__init__ default_model
                      (Some [text_scenario "first" 10 5;
                             text_scenario "second" 10 5]))
                   (snd (stream
                           (__init__ default_model
                              (Some [text_scenario "first" 10 5;
                                     text_scenario "second" 10 5]))
                           (default_args msg_hi))))))
      (default_args msg_none)
    = Some (self2, Returned (text_scenario "second" 10 5))
    /\ async_for lib_no_match 11 self2
         (InScenario [FinishEvent "stop" "mock" (Some 10) (Some 5)])
         [TextDeltaEvent "first" "first"]
       = Some (self2, Returned (text_scenario "first" 10 5)).
Proof.
  destruct (overlapping_calls lib_no_match
              (__init__ default_model
                 (Some [text_scenario "first" 10 5;
                        text_scenario "second" 10 5]))
              (default_args msg_hi) (default_args msg_none) 11
              ltac:(vm_compute; lia))
    as [self2 [H2 [H1 _]]].
  exists self2. split; [exact H2 | exact H1].
Defined.

(** ** Cycling from any index *)



(** ** The fallback loop on any text *)

Lemma str_split_length (sep : ascii) (s : string) :
  List.length (str_split sep s) = S (count_char sep s).
Proof.
  induction s as [| c rest IH]; [reflexivity |].
  cbn [str_split count_char].
  destruct (Ascii.eqb c sep).
  - cbn [List.length]. rewrite IH. reflexivity.
  - destruct (str_split sep rest) as [| w ws]; [discriminate IH |].
    cbn [List.length] in *. lia.
Qed.

Lemma count_char_le_length (c : ascii) (s : string) :
  (count_char c s <= String.length s)%nat.
Proof.
  induction s as [| c' rest IH]; [apply Nat.le_refl |].
  cbn [count_char String.length]. destruct (Ascii.eqb c' c); lia.
Qed.

(** No field of a split holds the separator. *)
Lemma str_split_fields (sep : ascii) (s : string) :
  Forall (fun field => count_char sep field = O) (str_split sep s).
Proof.
  induction s as [| c rest IH]; [repeat constructor |].
  cbn [str_split]. destruct (Ascii.eqb c sep) eqn:E.
  - constructor; [reflexivity | exact IH].
  - destruct (str_split sep rest) as [| w ws].
    + constructor; [cbn; rewrite E; reflexivity | constructor].
    + inversion IH as [| ? ? Hw Hws]; subst.
      constructor; [cbn; rewrite E, Hw; reflexivity | exact Hws].
Qed.

Lemma concat_spaced (w : string) (ws : list string) :
  String.concat EmptyString (map (fun word => " " ++ word) (w :: ws))
  = " " ++ String.concat EmptyString (spec_fragments (w :: ws)).
Proof.
  cbn [map spec_fragments]. rewrite !concat_empty_cons.
  apply append_assoc.
Qed.

(** Joining the fragments of a split gives the text back. *)
Lemma fragments_round_trip (s : string) :
  String.concat EmptyString (spec_fragments (str_split " " s)) = s.
Proof.
  induction s as [| c rest IH]; [reflexivity |].
  cbn [str_split].
  destruct (Ascii.eqb_spec c " ") as [-> | Hc].
  - destruct (str_split " " rest) as [| w ws] eqn:E.
    + pose proof (str_split_length " " rest) as Hlen.
      rewrite E in Hlen. discriminate Hlen.
    + cbn [spec_fragments]. rewrite concat_empty_cons, concat_spaced, IH.
      reflexivity.
  - destruct (str_split " " rest) as [| w ws] eqn:E.
    + pose proof (str_split_length " " rest) as Hlen.
      rewrite E in Hlen. discriminate Hlen.
    + cbn [spec_fragments] in *. rewrite concat_empty_cons in IH.
      rewrite concat_empty_cons.
      change (String c w ++ ?x) with (String c (w ++ x)).
      rewrite IH. reflexivity.
Qed.

Lemma fallback_full_text (words : list string) :
  words_text 0 words EmptyString
  = String.concat EmptyString (spec_fragments words).
Proof.
  rewrite words_text_concat, word_deltas_contents. reflexivity.
Qed.

Lemma word_deltas_text_deltas (words : list string) :
  forall i accumulated,
    List.length (text_deltas (word_deltas i words accumulated))
    = List.length words.
Proof.
  induction words as [| w rest IH]; intros i acc; cbn; [| rewrite IH];
    reflexivity.
Qed.

Lemma stream_text_events (lib : PyLib) (self : MockLLMProvider)
    (content : string) (fuel : nat) :
  (List.length (str_split " " content) + 2 < fuel)%nat ->
  stream_text lib fuel self content
  = Some (self,
          Returned (fallback_events (model self) (str_split " " content))).
Proof.
  intros Hfuel. unfold stream_text.
  destruct (str_split " " content) as [| w rest]; cbn [for_words].
  - destruct fuel as [| [| fuel]]; cbn in Hfuel; try lia. reflexivity.
  - cbn [List.length] in Hfuel. rewrite async_for_words by lia. reflexivity.
Qed.

(** X5.  The fallback branch reassembles the text it splits, whatever the
    text: for any response text, the empty one and runs of spaces included,
    it yields one delta per space-separated field (one more than there are
    spaces, so at least one), then a [TextEndEvent] whose [full_text] is the
    text itself, then the finish event; the contents of the deltas
    concatenate to the text, every snapshot is the concatenation of the
    contents so far, and the last snapshot is the whole text.  On an empty
    store, [stream] runs this branch on the text of
    [_generate_mock_response]. *)
Theorem fallback_round_trip (lib : PyLib) (self : MockLLMProvider)
    (content : string) (fuel : nat) :
  (String.length content + 3 < fuel)%nat ->
  (exists deltas,
      stream_text lib fuel self content
      = Some (self,
              Returned
                (deltas
                 ++ [ TextEndEvent content;
                      FinishEvent "mock_complete" (model self) None None
                    ])%list)
      /\ Forall (fun event => exists c snapshot,
                     event = TextDeltaEvent c snapshot) deltas
      /\ List.length deltas = S (count_char " " content)
      /\ delta_text deltas = content
      /\ prefix_invariant deltas
      /\ exists c,
          nth_error (text_deltas deltas) (count_char " " content)
          = Some (c, content))
  /\ (forall args fuel',
         scenarios self = [] ->
         _collect lib (S fuel') self args
         = stream_text lib fuel' (record_call self args)
             (_generate_mock_response lib (system args) false)).
Proof.
  intros Hfuel. split.
  - set (words := str_split " " content).
    assert (Hlen : List.length words = S (count_char " " content))
      by apply str_split_length.
    pose proof (count_char_le_length " " content) as Hcount.
    assert (Htext : String.concat EmptyString
                      (map fst (text_deltas (word_deltas 0 words EmptyString)))
                    = content).
    { rewrite word_deltas_contents. apply fragments_round_trip. }
    assert (Hprefix : prefix_invariant (word_deltas 0 words EmptyString)).
    { intros k c snapshot Hnth.
      apply (word_deltas_snapshots words 0%nat EmptyString k c snapshot Hnth). }
    exists (word_deltas 0 words EmptyString).
    split; [| split; [| split; [| split; [| split]]]].
    + rewrite stream_text_events by (fold words; lia).
      unfold fallback_events. fold words.
      rewrite fallback_full_text. unfold words.
      rewrite fragments_round_trip. reflexivity.
    + apply word_deltas_are_deltas.
    + rewrite word_deltas_length. exact Hlen.
    + exact Htext.
    + exact Hprefix.
    + pose proof (word_deltas_text_deltas words 0%nat EmptyString) as Hn.
      destruct (nth_error (text_deltas (word_deltas 0 words EmptyString))
                  (count_char " " content)) as [[c snapshot] |] eqn:Hnth.
      * exists c. rewrite (Hprefix _ _ _ Hnth).
        rewrite firstn_all2 by lia. rewrite Htext. reflexivity.
      * apply nth_error_None in Hnth. lia.
  - intros args fuel' He. unfold _collect, stream, stream_text.
    cbn [async_for]. rewrite (anext_created_empty lib self args He).
    destruct (for_words _ _ _ _) as [[self' gen'] [event | | exc]];
      reflexivity.
Qed.

Lemma fallback_round_trip_witness :
  exists deltas,
    stream_text lib_no_match 9 (__init__ "gpt-test" None) "a  b"
    = Some (__init__ "gpt-test" None,
            Returned
              (deltas
               ++ [ TextEndEvent "a  b";
                    FinishEvent "mock_complete" "gpt-test" None None ])%list)
    /\ List.length deltas = 3%nat
    /\ map fst (text_deltas deltas) = ["a"; " "; " b"].
Proof.
  destruct (proj1 (fallback_round_trip lib_no_match
                     (__init__ "gpt-test" None) "a  b" 9
                     ltac:(cbn; lia)))
    as [deltas [Hrun [_ [Hlen _]]]].
  exists deltas. split; [exact Hrun |]. split; [exact Hlen |].
  vm_compute in Hrun. injection Hrun as Hrun.
  destruct deltas as [| d1 [| d2 [| d3 [| d4 rest]]]]; try discriminate Hlen.
  injection Hrun as <- <- <-. reflexivity.
Defined.

(** ** Scenarios made by the helpers *)

Lemma reconciliation_without_text_end (events : list StreamEvent) :
  filter is_text_end events = [] -> reconciliation_invariant events.
Proof.
  intros Hf. split.
  - intros i full_text Hnth. apply nth_error_In in Hnth.
    assert (Hin : In (TextEndEvent full_text) (filter is_text_end events))
      by (apply filter_In; split; [exact Hnth | reflexivity]).
    rewrite Hf in Hin. destruct Hin.
  - rewrite Hf. cbn. lia.
Qed.

Lemma prefix_single_delta (text : string) (events : list StreamEvent) :
  text_deltas events = [(text, text)] -> prefix_invariant events.
Proof.
  intros Hd i c snapshot. rewrite Hd. intros Hnth.
  destruct i as [| [| i]]; try discriminate Hnth.
  injection Hnth as _ <-. reflexivity.
Qed.

Lemma prefix_no_delta (events : list StreamEvent) :
  text_deltas events = [] -> prefix_invariant events.
Proof.
  intros Hd i c snapshot. rewrite Hd. destruct i; discriminate.
Qed.

Lemma helper_built_invariants (scenario : list StreamEvent) :
  helper_built scenario ->
  terminal_invariant scenario = true
  /\ prefix_invariant scenario
  /\ reconciliation_invariant scenario.
Proof.
  intros [text i o | name input id text | error recoverable].
  - split; [reflexivity |]. split.
    + apply (prefix_single_delta text). reflexivity.
    + apply reconciliation_without_text_end. reflexivity.
  - destruct text as [| c text].
    + split; [reflexivity |]. split.
      * apply prefix_no_delta. reflexivity.
      * apply reconciliation_without_text_end. reflexivity.
    + split; [reflexivity |]. split.
      * apply (prefix_single_delta (String c text)). reflexivity.
      * apply reconciliation_without_text_end. reflexivity.
  - split; [reflexivity |]. split.
    + apply prefix_no_delta. reflexivity.
    + apply reconciliation_without_text_end. reflexivity.
Qed.

(** X6.  On a provider whose scenarios were all made by [text_scenario],
    [tool_call_scenario] or [error_scenario] (or that has none), every call,
    after any earlier calls consumed to any extent, can be consumed to its
    end and yields a sequence with exactly one terminal event, at its end,
    with snapshots that are the concatenation of the contents so far, and
    with at most one [TextEndEvent], which agrees with the deltas. *)
Theorem helper_scenarios_keep_invariants (lib : PyLib)
    (self : MockLLMProvider) (prior : list (StreamArgs * nat))
    (args : StreamArgs) :
  Forall helper_built (scenarios self) ->
  exists events,
    (forall fuel,
        (fuel_bound self < fuel)%nat ->
        option_map snd (_collect lib fuel (pull_all lib self prior) args)
        = Some (Returned events))
    /\ terminal_invariant events = true
    /\ prefix_invariant events
    /\ reconciliation_invariant events.
Proof.
  intros Hbuilt.
  destruct (pull_all_state lib prior self) as [_ [Hs _]].
  exists (stream_events lib (pull_all lib self prior) args).
  split.
  - intros fuel Hfuel. rewrite collect_total; [reflexivity |].
    unfold fuel_bound. rewrite Hs. exact Hfuel.
  - unfold stream_events.
    destruct (scenarios (pull_all lib self prior)) as [| sc scs] eqn:E.
    + split; [apply fallback_terminal_invariant |].
      split; [apply fallback_prefix_invariant
             | apply fallback_reconciliation_invariant].
    + assert (Hne : scenarios (pull_all lib self prior) <> [])
        by congruence.
      destruct (selected_scenario_some _ Hne) as [events [Hsel _]].
      rewrite Hsel. apply helper_built_invariants.
      rewrite Forall_forall in Hbuilt. apply Hbuilt.
      unfold selected_scenario in Hsel. apply nth_error_In in Hsel.
      rewrite E in Hsel. rewrite <- Hs. exact Hsel.
Qed.

Lemma helper_scenarios_keep_invariants_witness :
  exists events,
    option_map snd
      (_collect lib_no_match 11
         (pull_all lib_no_match
            (__init__ default_model
               (Some [ text_scenario "first" 10 5;
                       tool_call_scenario "run" PyNone "call_1"
                         "Let me check" ]))
            [(default_args msg_hi, 1%nat)])
         (default_args msg_hi))
    = Some (Returned events)
    /\ terminal_invariant events = true
    /\ events = tool_call_scenario "run" PyNone "call_1" "Let me check".
Proof.
  destruct (helper_scenarios_keep_invariants lib_no_match
              (__init__ default_model
                 (Some [ text_scenario "first" 10 5;
                         tool_call_scenario "run" PyNone "call_1"
                           "Let me check" ]))
              [(default_args msg_hi, 1%nat)] (default_args msg_hi)
              ltac:(repeat constructor))
    as [events [Hrun [Hterm _]]].
  exists events.
  specialize (Hrun 11%nat ltac:(vm_compute; lia)).
  split; [exact Hrun |]. split; [exact Hterm |].
  vm_compute in Hrun. injection Hrun as <-. reflexivity.
Defined.

(** ** The JSON answer *)

Example dict_keys_repeats :
  dict_keys ["name"; "age"; "name"; "city"; "age"] = ["name"; "age"; "city"].
Proof. reflexivity. Qed.

Lemma dict_keys_In (keys : list string) (k : string) :
  In k (dict_keys keys) <-> In k keys.
Proof.
  induction keys as [| k0 rest IH]; [reflexivity |].
  cbn [dict_keys]. split.
  - intros [<- | Hin]; [left; reflexivity |].
    apply filter_In in Hin. right. apply IH. exact (proj1 Hin).
  - intros [<- | Hin]; [left; reflexivity |].
    destruct (String.eqb_spec k0 k) as [-> | Hne]; [left; reflexivity |].
    right. apply filter_In. split; [apply IH; exact Hin |].
    destruct (String.eqb_spec k0 k); [contradiction | reflexivity].
Qed.

Lemma dict_keys_NoDup (keys : list string) : NoDup (dict_keys keys).
Proof.
  induction keys as [| k0 rest IH]; [constructor |].
  cbn [dict_keys]. constructor.
  - intros Hin. apply filter_In in Hin. destruct Hin as [_ Hneq].
    rewrite String.eqb_refl in Hneq. discriminate Hneq.
  - apply NoDup_filter. exact IH.
Qed.

Lemma filter_nth_order {A : Type} (f : A -> bool) (l : list A) :
  forall i j a b,
    (i < j)%nat ->
    nth_error (filter f l) i = Some a ->
    nth_error (filter f l) j = Some b ->
    exists i' j',
      (i' < j')%nat /\ nth_error l i' = Some a /\ nth_error l j' = Some b.
Proof.
  induction l as [| x l IH]; intros i j a b Hij Ha Hb.
  - destruct i; discriminate Ha.
  - cbn [filter] in Ha, Hb. destruct (f x).
    + destruct j as [| j]; [lia |]. cbn [nth_error] in Hb.
      destruct i as [| i].
      * cbn in Ha. injection Ha as ->.
        apply nth_error_In, filter_In, proj1, In_nth_error in Hb.
        destruct Hb as [j' Hj']. exists O, (S j').
        split; [lia |]. split; [reflexivity | exact Hj'].
      * cbn [nth_error] in Ha.
        destruct (IH i j a b ltac:(lia) Ha Hb) as [i' [j' [Hlt [Hi' Hj']]]].
        exists (S i'), (S j'). split; [lia |]. split; assumption.
    + destruct (IH i j a b Hij Ha Hb) as [i' [j' [Hlt [Hi' Hj']]]].
      exists (S i'), (S j'). split; [lia |]. split; assumption.
Qed.

(** The keys of the dict are in the order of their first occurrences. *)
Lemma dict_keys_order (keys : list string) :
  forall i j k1 k2,
    (i < j)%nat ->
    nth_error (dict_keys keys) i = Some k1 ->
    nth_error (dict_keys keys) j = Some k2 ->
    exists p,
      nth_error keys p = Some k1 /\ ~ In k2 (firstn (S p) keys).
Proof.
  induction keys as [| k0 rest IH]; intros i j k1 k2 Hij H1 H2.
  - destruct i; discriminate H1.
  - cbn [dict_keys] in H1, H2.
    destruct j as [| j]; [lia |]. cbn [nth_error] in H2.
    assert (Hne : k0 <> k2).
    { pose proof (nth_error_In _ _ H2) as Hin.
      apply filter_In in Hin. destruct Hin as [_ Hneq].
      intros ->. rewrite String.eqb_refl in Hneq. discriminate Hneq. }
    destruct i as [| i].
    + cbn in H1. injection H1 as ->. exists O.
      split; [reflexivity |]. cbn. intros [Heq | []]. exact (Hne Heq).
    + cbn [nth_error] in H1.
      destruct (filter_nth_order _ _ i j k1 k2 ltac:(lia) H1 H2)
        as [i' [j' [Hlt [Hi' Hj']]]].
      destruct (IH i' j' k1 k2 Hlt Hi' Hj') as [p [Hp Hnot]].
      exists (S p). split; [exact Hp |].
      cbn [firstn]. intros [Heq | Hin]; [exact (Hne Heq) | exact (Hnot Hin)].
Qed.

(** X7.  In JSON mode the answer is always the JSON text of a dict with at
    least one key and no repeated key, in which every key [k] maps to
    [mock_k_value]: the keys are those extracted from the prompt, each once,
    in the order of their first occurrences (a key that comes before another
    in the dict occurs in the extracted list before the other's first
    occurrence), or the single key [result] when none was extracted, so the
    generic answer follows the same scheme. *)
Theorem json_answer_shape (lib : PyLib) (system : string) :
  exists keys,
    _generate_mock_response lib system true
    = json_dumps_indent2 lib
        (map (fun k => (k, "mock_" ++ k ++ "_value")) keys)
    /\ keys <> []
    /\ NoDup keys
    /\ (forall k,
           In k keys
           <-> In k (match _extract_output_keys lib system with
                     | [] => ["result"]
                     | k0 :: ks => k0 :: ks
                     end))
    /\ hd_error keys
       = hd_error (match _extract_output_keys lib system with
                   | [] => ["result"]
                   | k0 :: ks => k0 :: ks
                   end)
    /\ (forall i j k1 k2,
           (i < j)%nat ->
           nth_error keys i = Some k1 ->
           nth_error keys j = Some k2 ->
           exists p,
             nth_error (match _extract_output_keys lib system with
                        | [] => ["result"]
                        | k0 :: ks => k0 :: ks
                        end) p
             = Some k1
             /\ ~ In k2
                   (firstn (S p)
                      (match _extract_output_keys lib system with
                       | [] => ["result"]
                       | k0 :: ks => k0 :: ks
                       end))).
Proof.
  unfold _generate_mock_response.
  destruct (_extract_output_keys lib system) as [| k0 ks].
  - exists ["result"]. split; [reflexivity |]. split; [discriminate |].
    split; [repeat constructor; intros [] |].
    split; [reflexivity |]. split; [reflexivity |].
    intros i j k1 k2 Hij H1 H2.
    destruct j as [| [| j]]; [lia | discriminate H2 | discriminate H2].
  - exists (dict_keys (k0 :: ks)). split; [reflexivity |].
    split; [discriminate |]. split; [apply dict_keys_NoDup |].
    split; [intros k; apply dict_keys_In |].
    split; [reflexivity | apply dict_keys_order].
Qed.


(** X8.  When the bracket pattern matches, one key is returned per
    comma-separated field of its group, so at least one, empty fields
    included; for [output_keys: []] the group is empty, the single key is
    the empty string, and the JSON answer is the dict with that one key, not
    the generic answer. *)
Theorem bracket_form_keys (lib : PyLib) (system keys_str : string) :
  re_search lib pat_output_keys_list system = Some keys_str ->
  List.length (_extract_output_keys lib system)
  = S (count_char "," keys_str)
  /\ (keys_str = EmptyString ->
      str_strip lib EmptyString = EmptyString ->
      _extract_output_keys lib system = [EmptyString]
      /\ _generate_mock_response lib system true
         = json_dumps_indent2 lib [(EmptyString, "mock__value")]).
Proof.
  intros Hm. unfold _generate_mock_response, _extract_output_keys.
  rewrite Hm. split.
  - rewrite length_map. apply str_split_length.
  - intros -> Hstrip. cbn [str_split map]. rewrite Hstrip.
    split; reflexivity.
Qed.

Lemma bracket_form_keys_witness :
  _extract_output_keys lib_empty_brackets "output_keys: []" = [EmptyString]
  /\ _generate_mock_response lib_empty_brackets "output_keys: []" true
     = json_plain_indent2 [(EmptyString, "mock__value")].
Proof.
  exact (proj2 (bracket_form_keys lib_empty_brackets "output_keys: []"
                  EmptyString eq_refl) eq_refl eq_refl).
Defined.

(** X9.  When the bracket pattern does not match and the inline pattern
    does, fields that strip to nothing are dropped: no returned key is
    empty, and there is at most one key per comma-separated field.  When
    every field strips to nothing the result is empty, the quoted-key
    pattern is not tried, and the JSON answer is the generic one. *)
Theorem inline_form_keys (lib : PyLib) (system keys_str : string) :
  re_search lib pat_output_keys_list system = None ->
  re_search lib pat_keys_inline system = Some keys_str ->
  Forall (fun k => k <> EmptyString) (_extract_output_keys lib system)
  /\ (List.length (_extract_output_keys lib system)
      <= S (count_char "," keys_str))%nat
  /\ (Forall (fun field => str_strip lib field = EmptyString)
        (str_split "," keys_str) ->
      _extract_output_keys lib system = []
      /\ _generate_mock_response lib system true
         = json_dumps_indent2 lib [("result", "mock_result_value")]).
Proof.
  intros H1 H2.
  assert (Hkeys : _extract_output_keys lib system
                  = map (str_strip lib)
                      (filter (fun k => negb (String.eqb (str_strip lib k)
                                                EmptyString))
                         (str_split "," keys_str))).
  { unfold _extract_output_keys. rewrite H1, H2. reflexivity. }
  split; [| split].
  - rewrite Hkeys. apply Forall_forall. intros k Hin.
    apply in_map_iff in Hin. destruct Hin as [field [<- Hin]].
    apply filter_In in Hin. destruct Hin as [_ Hne].
    destruct (String.eqb_spec (str_strip lib field) EmptyString);
      [discriminate Hne | assumption].
  - rewrite Hkeys, length_map, <- (str_split_length "," keys_str).
    apply filter_length_le.
  - intros Hall.
    assert (He : _extract_output_keys lib system = []).
    { rewrite Hkeys. clear Hkeys.
      induction Hall as [| field rest Hf Hrest IH]; [reflexivity |].
      cbn [filter]. rewrite Hf. cbn. exact IH. }
    split; [exact He |].
    unfold _generate_mock_response. rewrite He. reflexivity.
Qed.

Lemma inline_form_keys_witness :
  _extract_output_keys lib_inline_keys "keys: name,,age" = ["name"; "age"]
  /\ Forall (fun k => k <> EmptyString)
       (_extract_output_keys lib_inline_keys "keys: name,,age").
Proof.
  split; [reflexivity |].
  exact (proj1 (inline_form_keys lib_inline_keys "keys: name,,age"
                  "name,,age" eq_refl eq_refl)).
Defined.

(** ** The non-streaming completions *)

Lemma prefix_spec (needle s : string) :
  String.prefix needle s = true <-> exists post, s = needle ++ post.
Proof.
  revert s. induction needle as [| c needle IH]; intros s.
  - split; [intros _; exists s; reflexivity |].
    intros _. destruct s; reflexivity.
  - destruct s as [| c' s]; cbn [String.prefix].
    + split; [discriminate | intros [post H]; discriminate H].
    + destruct (ascii_dec c c') as [<- | Hne].
      * rewrite IH. split.
        -- intros [post ->]. exists post. reflexivity.
        -- intros [post H]. injection H as ->. exists post. reflexivity.
      * split; [discriminate |].
        intros [post H]. injection H as <- _. contradiction.
Qed.

Lemma str_contains_spec (needle s : string) :
  str_contains needle s = true
  <-> exists pre post, s = pre ++ needle ++ post.
Proof.
  split.
  - induction s as [| c rest IH]; cbn [str_contains]; intros H;
      apply orb_true_iff in H; destruct H as [H | H].
    + apply prefix_spec in H. destruct H as [post ->].
      exists EmptyString, post. reflexivity.
    + discriminate H.
    + apply prefix_spec in H. destruct H as [post ->].
      exists EmptyString, post. reflexivity.
    + destruct (IH H) as [pre [post ->]].
      exists (String c pre), post. reflexivity.
  - intros [pre [post ->]]. induction pre as [| c pre IH].
    + assert (Hp : String.prefix needle (needle ++ post) = true)
        by (apply prefix_spec; exists post; reflexivity).
      cbn [append]. destruct (needle ++ post); cbn [str_contains];
        rewrite Hp; reflexivity.
    + cbn [append str_contains]. rewrite IH. apply orb_true_r.
Qed.

(** X10.  Streaming and [complete] agree in text mode: on a provider
    without scenarios, whatever the arguments of either call, the contents
    of the streamed deltas concatenate to the content of the response of
    [complete] with [json_mode=False], the [TextEndEvent] carries that
    content, and the finish event carries the response's stop reason and
    model; the response reports zero tokens. *)
Theorem stream_agrees_with_complete (lib : PyLib) (self : MockLLMProvider)
    (args : StreamArgs) (fuel : nat) (msgs : list PyVal) (sys : string)
    (tls : option (list PyVal)) (limit : Z) (format : option PyVal) :
  scenarios self = [] ->
  (10 < fuel)%nat ->
  exists deltas,
    option_map snd (_collect lib fuel self args)
    = Some (Returned
              (deltas
               ++ [ TextEndEvent
                      (response_content
                         (complete lib self msgs sys tls limit format false));
                    FinishEvent
                      (response_stop_reason
                         (complete lib self msgs sys tls limit format false))
                      (response_model
                         (complete lib self msgs sys tls limit format false))
                      None None ])%list)
    /\ Forall (fun event => exists c snapshot,
                   event = TextDeltaEvent c snapshot) deltas
    /\ delta_text deltas
       = response_content (complete lib self msgs sys tls limit format false)
    /\ response_input_tokens
         (complete lib self msgs sys tls limit format false) = 0
    /\ response_output_tokens
         (complete lib self msgs sys tls limit format false) = 0.
Proof.
  intros He Hfuel.
  exists (word_deltas 0
            (str_split " " (_generate_mock_response lib (system args) false))
            EmptyString).
  split; [| split; [| split; [| split]]].
  - rewrite (collect_fallback lib self args fuel He).
    + reflexivity.
    + rewrite fallback_words. cbn [List.length]. lia.
  - apply word_deltas_are_deltas.
  - reflexivity.
  - reflexivity.
  - reflexivity.
Qed.

Lemma stream_agrees_with_complete_witness :
  exists deltas,
    option_map snd
      (_collect lib_no_match 11 (__init__ "gpt-test" None)
         (default_args msg_hi))
    = Some (Returned
              (deltas
               ++ [ TextEndEvent
                      "This is a mock response for testing purposes.";
                    FinishEvent "mock_complete" "gpt-test" None None ])%list)
    /\ delta_text deltas = "This is a mock response for testing purposes.".
Proof.
  destruct (stream_agrees_with_complete lib_no_match
              (__init__ "gpt-test" None) (default_args msg_hi) 11
              [] "Generate JSON with keys: name, age" None 1024 None
              eq_refl ltac:(lia))
    as [deltas [Hrun [_ [Htext _]]]].
  exists deltas. split; [exact Hrun | exact Htext].
Defined.

(** X11.  [complete_with_tools] never consults the executor, the tools, the
    messages or the iteration limit: its response is that of [complete] on
    the same system prompt, in JSON mode exactly when the lowered prompt
    contains [json] or [output_keys] somewhere, and otherwise the fixed
    sentence. *)
Theorem complete_with_tools_mode (lib : PyLib)
    (str_lower : string -> string) (self : MockLLMProvider)
    (sys : string) :
  exists json_mode,
    (json_mode = true
     <-> exists pre post,
         str_lower sys = pre ++ "json" ++ post
         \/ str_lower sys = pre ++ "output_keys" ++ post)
    /\ (forall msgs tls tool_executor max_iterations msgs' tls' limit format,
           complete_with_tools lib str_lower self msgs sys tls tool_executor
             max_iterations
           = complete lib self msgs' sys tls' limit format json_mode)
    /\ (json_mode = false ->
        forall msgs tls tool_executor max_iterations,
          response_content
            (complete_with_tools lib str_lower self msgs sys tls
               tool_executor max_iterations)
          = "This is a mock response for testing purposes.").
Proof.
  exists (str_contains "json" (str_lower sys)
          || str_contains "output_keys" (str_lower sys)).
  split; [| split].
  - rewrite orb_true_iff, !str_contains_spec. split.
    + intros [[pre [post H]] | [pre [post H]]]; exists pre, post; auto.
    + intros [pre [post [H | H]]]; [left | right]; exists pre, post; exact H.
  - reflexivity.
  - intros Hmode msgs tls tool_executor max_iterations.
    unfold complete_with_tools. cbn [response_content].
    rewrite Hmode. reflexivity.
Qed.
